(** * Out-percentage aggregation of [streamlit_app.py], embedded in Rocq

    The dashboard fetches Statcast pitch records, flags the pitches that ended
    an at-bat in an out, and aggregates the flag by pitch type for one player
    and for the whole league.  This development embeds the functions of
    [streamlit_app.py] that carry that logic

      - [load_statcast_data]                 (lines 136-161)
      - [calculate_out_percentage]           (lines 164-176)
      - [format_player_name]                 (lines 179-183)
      - [get_out_percentage_by_pitch_type]   (lines 186-225)
      - [get_league_avg_out_percentage]      (lines 228-267)

    and proves the properties the specification states about them; it then
    embeds what the page script (lines 270-478) computes from them (the
    year and player boxes, the summary table, the comparison chart) and
    proves further properties of the whole.

    Modelling conventions.
      - A pandas [DataFrame] is the list of its rows, in row order; every frame
        has the Statcast columns the functions read, so a column lookup never
        fails.  A missing value ([None]/[NaN]) of an object column is [None].
      - A Python [str] is a [string]; each [ascii] stands for one character
        (code points below 256).
      - [int64] columns are [Z] (counts never come near the wrap-around);
        [float64] values are the kernel's binary64 floats, so the arithmetic
        of [out_percentage] is the IEEE arithmetic numpy performs.
      - The pandas, numpy and [str] operations the source calls are modelled
        by the functions of the modules [Py], [Np] and [Pd] below. *)

From Stdlib Require Import ZArith String Ascii List Sorting.Sorted.
From Stdlib Require Import Floats.PrimFloat Floats.SpecFloat Floats.FloatOps.
From stdpp Require Import base list strings gmap pretty.

Local Open Scope Z_scope.
Local Open Scope string_scope.

(* ===================================================================== *)
(** * Data model *)
(* ===================================================================== *)

(** One row of the raw Statcast frame, restricted to the columns the
    aggregation reads: [player_name] ("Last, First"), [game_year],
    [pitch_type] and [events] (the at-bat result, missing on a pitch that did
    not end the at-bat). *)
Module Event.
Record t : Type := mk {
  player_name : option string;
  game_year : Z;
  pitch_type : option string;
  events : option string
}.
End Event.

(** A row of the frame [calculate_out_percentage] returns: the raw columns and
    the added boolean column [IsOutPitch]. *)
Module Pitch.
Record t : Type := mk {
  event : Event.t;
  IsOutPitch : bool
}.
Definition player_name (p : t) : option string := Event.player_name (event p).
Definition game_year (p : t) : Z := Event.game_year (event p).
Definition pitch_type (p : t) : option string := Event.pitch_type (event p).
Definition events (p : t) : option string := Event.events (event p).
End Pitch.

#[global] Instance Event_eq_dec : EqDecision Event.t.
Proof. solve_decision. Defined.

#[global] Instance Pitch_eq_dec : EqDecision Pitch.t.
Proof. solve_decision. Defined.

(* ===================================================================== *)
(** * Python values: results and [str] methods *)
(* ===================================================================== *)

(** The outcome of a call that may raise: the value returned, or the
    exception raised, kept as its message [str(e)]. *)
Inductive result (A : Type) : Type :=
| Ok (a : A)
| Raised (msg : string).
Arguments Ok {A} a.
Arguments Raised {A} msg.

Module Py.

(** [sep in s] for a one-character [sep]. *)
Fixpoint contains (sep : ascii) (s : string) : bool :=
  match s with
  | EmptyString => false
  | String c rest => Ascii.eqb c sep || contains sep rest
  end.

(** [s.split(sep, maxsplit)] for a one-character [sep]: at most [maxsplit]
    cuts, made at the leftmost occurrences of [sep]. *)
Fixpoint split (sep : ascii) (s : string) (maxsplit : nat) {struct s} : list string :=
  match maxsplit with
  | O => [s]
  | S n =>
      match s with
      | EmptyString => [EmptyString]
      | String c rest =>
          if Ascii.eqb c sep then EmptyString :: split sep rest n
          else match split sep rest maxsplit with
               | piece :: pieces => String c piece :: pieces
               | [] => [String c EmptyString]
               end
      end
  end.

(** [c.isspace()]: the whitespace characters of Python below code point 256
    (tab to carriage return, the four separators 0x1c-0x1f, space, NEL and
    the no-break space). *)
Definition isspace (c : ascii) : bool :=
  let n := N_of_ascii c in
  ((9 <=? n) && (n <=? 13) || (28 <=? n) && (n <=? 32) || (n =? 133) || (n =? 160))%N.

Fixpoint lstrip (s : string) : string :=
  match s with
  | EmptyString => EmptyString
  | String c rest => if isspace c then lstrip rest else s
  end.

Fixpoint rstrip (s : string) : string :=
  match s with
  | EmptyString => EmptyString
  | String c rest =>
      match rstrip rest with
      | EmptyString => if isspace c then EmptyString else String c EmptyString
      | kept => String c kept
      end
  end.

(** [s.strip()]: leading and trailing whitespace removed. *)
Definition strip (s : string) : string := rstrip (lstrip s).

End Py.

(* ===================================================================== *)
(** * numpy and pandas operations of the aggregation *)
(* ===================================================================== *)

Module Np.

(** An [int64] converted to [float64]: the nearest binary64 value. *)
Definition float_of_int (z : Z) : float :=
  SF2Prim (binary_normalize prec emax z 0 false).

(** [np.rint]: round to an integral value, ties to even, keeping the sign.
    Below [2^52] in magnitude, adding and subtracting [2^52] rounds a
    positive value at the unit; from [2^52] on every binary64 value is
    integral; zeros, infinities and NaN are returned as they are. *)
Definition rint (x : float) : float :=
  let two52 := 4503599627370496%float in
  let nearest (y : float) := PrimFloat.sub (PrimFloat.add y two52) two52 in
  if PrimFloat.ltb (PrimFloat.abs x) two52 then
    if PrimFloat.eqb x 0%float then x
    else if PrimFloat.ltb x 0%float then PrimFloat.opp (nearest (PrimFloat.opp x))
    else nearest x
  else x.

(** [10 ** n] as a float, exact up to [n = 22]. *)
Fixpoint power_of_ten (n : nat) : float :=
  match n with
  | O => 1%float
  | S k => PrimFloat.mul (power_of_ten k) 10%float
  end.

(** [np.round(x, decimals)] for [decimals >= 0], which is what
    [Series.round(decimals)] applies to each float: scale by the power of
    ten, [rint], scale back. *)
Definition round (x : float) (decimals : nat) : float :=
  match decimals with
  | O => rint x
  | S _ =>
      let f := power_of_ten decimals in
      PrimFloat.div (rint (PrimFloat.mul x f)) f
  end.

End Np.

Module Pd.

(** [Series.isin(values)] on one cell: a missing cell is in no list of
    strings. *)
Definition isin (cell : option string) (values : list string) : bool :=
  match cell with
  | Some s => bool_decide (s ∈ values)
  | None => false
  end.

(** The keys of [groupby(..., sort=True)]: each distinct key once, in
    ascending order of [str] comparison. *)
Fixpoint insert_key (k : string) (ks : list string) : list string :=
  match ks with
  | [] => [k]
  | k' :: rest =>
      match String.compare k k' with
      | Lt => k :: ks
      | Eq => ks
      | Gt => k' :: insert_key k rest
      end
  end.

(** [dropna=True]: a row whose key is missing belongs to no group. *)
Definition group_keys (rows : list Pitch.t) : list string :=
  foldr insert_key [] (omap Pitch.pitch_type rows).

Definition get_group (rows : list Pitch.t) (k : string) : list Pitch.t :=
  filter (fun p => Pitch.pitch_type p = Some k) rows.

(** [rows.groupby('pitch_type')]: the groups, in key order, each with its
    rows in frame order. *)
Definition groupby_pitch_type (rows : list Pitch.t) : list (string * list Pitch.t) :=
  (fun k => (k, get_group rows k)) <$> group_keys rows.

(** The aggregations ['sum'] and ['count'] over a boolean column (which has
    no missing cell). *)
Definition sum (flags : list bool) : Z :=
  foldr (fun b acc => Z.b2z b + acc) 0 flags.

Definition count (flags : list bool) : Z :=
  Z.of_nat (length flags).

End Pd.

(* ===================================================================== *)
(** * [calculate_out_percentage] *)
(* ===================================================================== *)

(** The list [out_events] of lines 167-171. *)
Definition out_events : list string :=
  [ "field_out"; "strikeout"; "grounded_into_double_play"; "fielders_choice_out";
    "force_out"; "sac_fly"; "sac_bunt"; "strikeout_double_play"; "double_play";
    "sac_fly_double_play"; "other_out"; "triple_play"; "sac_bunt_double_play" ].

(** Line 174: [data['IsOutPitch'] = data['events'].isin(out_events).astype(bool)],
    row by row. *)
Definition is_out_pitch (e : Event.t) : bool :=
  Pd.isin (Event.events e) out_events.

Definition calculate_out_percentage (data : list Event.t) : list Pitch.t :=
  (fun e => Pitch.mk e (is_out_pitch e)) <$> data.

(* ===================================================================== *)
(** * [format_player_name] *)
(* ===================================================================== *)

(** Lines 179-183.  The tuple assignment [last_name, first_name = ...] raises
    [ValueError] unless the split has exactly two pieces. *)
Definition format_player_name (name : string) : result string :=
  if Py.contains "," name then
    match Py.split "," name 1 with
    | [last_name; first_name] =>
        Ok (Py.strip first_name ++ " " ++ Py.strip last_name)
    | _ :: _ :: _ :: _ => Raised "too many values to unpack (expected 2)"
    | _ => Raised "not enough values to unpack (expected 2)"
    end
  else Ok name.

(* ===================================================================== *)
(** * The aggregation frames *)
(* ===================================================================== *)

(** A row after [groupby(...)['IsOutPitch'].agg([...]).reset_index()]. *)
Module Counts.
Record t : Type := mk {
  pitch_type : string;
  out_pitch_count : Z;
  total_pitches : Z
}.
End Counts.

(** The same row once the column [out_percentage] is assigned. *)
Module Rated.
Record t : Type := mk {
  pitch_type : string;
  out_pitch_count : Z;
  total_pitches : Z;
  out_percentage : float
}.
End Rated.

(** A row of the returned frame: the column [pitch_name] added. *)
Module AggregateRow.
Record t : Type := mk {
  pitch_type : string;
  out_pitch_count : Z;
  total_pitches : Z;
  out_percentage : float;
  pitch_name : string
}.
End AggregateRow.

(** Lines 191-194 and 233-236:
    [groupby('pitch_type')['IsOutPitch'].agg([('out_pitch_count', 'sum'),
    ('total_pitches', 'count')]).reset_index()]. *)
Definition agg_sum_count (rows : list Pitch.t) : list Counts.t :=
  (fun '(k, group) =>
     let flags := Pitch.IsOutPitch <$> group in
     Counts.mk k (Pd.sum flags) (Pd.count flags))
  <$> Pd.groupby_pitch_type rows.

(** Lines 197 and 239:
    [(out_pitch_count / total_pitches * 100).round(2)] in [float64]. *)
Definition out_percentage_of (out_pitch_count total_pitches : Z) : float :=
  Np.round
    (PrimFloat.mul
       (PrimFloat.div (Np.float_of_int out_pitch_count) (Np.float_of_int total_pitches))
       100%float)
    2.

Definition add_out_percentage (c : Counts.t) : Rated.t :=
  Rated.mk (Counts.pitch_type c) (Counts.out_pitch_count c) (Counts.total_pitches c)
    (out_percentage_of (Counts.out_pitch_count c) (Counts.total_pitches c)).

(** Lines 203-218 and 245-260 (the two dictionaries are the same). *)
Definition pitch_type_map : gmap string string :=
  list_to_map
    [ ("FF", "Four-Seam Fastball"); ("SL", "Slider"); ("CH", "Changeup");
      ("CU", "Curveball"); ("SI", "Sinker"); ("FC", "Cutter"); ("FS", "Splitter");
      ("FT", "Two-Seam Fastball"); ("KC", "Knuckle Curve"); ("EP", "Eephus");
      ("KN", "Knuckleball"); ("SC", "Screwball"); ("ST", "Sweeper"); ("SV", "Slurve") ].

(** Lines 221-223 and 263-265: [lambda x: pitch_type_map.get(x, x)]. *)
Definition pitch_name_of (x : string) : string :=
  default x (pitch_type_map !! x).

Definition add_pitch_name (r : Rated.t) : AggregateRow.t :=
  AggregateRow.mk (Rated.pitch_type r) (Rated.out_pitch_count r) (Rated.total_pitches r)
    (Rated.out_percentage r) (pitch_name_of (Rated.pitch_type r)).

(* ===================================================================== *)
(** * [get_out_percentage_by_pitch_type] and [get_league_avg_out_percentage] *)
(* ===================================================================== *)

(** Lines 186-225.  A missing [player_name] equals no name. *)
Definition get_out_percentage_by_pitch_type
    (data : list Pitch.t) (player_name : string) (year : Z) (min_pitches : Z)
  : list AggregateRow.t :=
  let player_data :=
    filter (fun p => Pitch.player_name p = Some player_name /\ Pitch.game_year p = year) data in
  let pitch_type_results := agg_sum_count player_data in
  let pitch_type_results := add_out_percentage <$> pitch_type_results in
  let pitch_type_results :=
    filter (fun r => Rated.total_pitches r >= min_pitches) pitch_type_results in
  add_pitch_name <$> pitch_type_results.

(** Lines 228-267. *)
Definition get_league_avg_out_percentage
    (data : list Pitch.t) (year : Z) (min_pitches : Z) : list AggregateRow.t :=
  let year_data := filter (fun p => Pitch.game_year p = year) data in
  let league_avg := agg_sum_count year_data in
  let league_avg := add_out_percentage <$> league_avg in
  let league_avg := filter (fun r => Rated.total_pitches r >= min_pitches) league_avg in
  add_pitch_name <$> league_avg.

(** The default [min_pitches=5] of both signatures. *)
Definition default_min_pitches : Z := 5.

(* ===================================================================== *)
(** * [load_statcast_data] *)
(* ===================================================================== *)

(** What the loader does to the outside: a call of [pybaseball.statcast] with
    its two date arguments, and the messages it shows through [st.spinner],
    [st.success] and [st.error]. *)
Inductive effect : Type :=
| Fetch (start_dt end_dt : string)
| Spinner (msg : string)
| Success (msg : string)
| Error (msg : string).

#[global] Instance effect_eq_dec : EqDecision effect.
Proof. solve_decision. Defined.

Section Loader.

(** The outside world (the Statcast service, the clock), and the library
    calls that depend on it.  [statcast] returns a frame or raises an
    [Exception]; the world it leaves may differ from the one it found, so a
    second call with the same dates need not behave as the first.
    [datetime], [timedelta] subtraction and [strftime("%Y-%m-%d")] are the
    standard library's. *)
Variable World : Type.
Variable datetime : Type.
Variable statcast : string -> string -> World -> result (list Event.t) * World.
Variable datetime_now : World -> datetime.
Variable minus_days : datetime -> Z -> datetime.
Variable strftime_ymd : datetime -> string.

Record state : Type := mkstate {
  world : World;
  trace : list effect
}.

(** Computations of the loader: a state monad over [state]. *)
Definition M (A : Type) : Type := state -> A * state.

#[local] Instance M_ret : MRet M := fun A a s => (a, s).
#[local] Instance M_bind : MBind M :=
  fun A B f m s => let '(a, s') := m s in f a s'.

Definition emit (e : effect) : M unit :=
  fun s => (tt, mkstate (world s) (trace s ++ [e])).

Definition call_statcast (start_dt end_dt : string) : M (result (list Event.t)) :=
  fun s =>
    let '(r, w) := statcast start_dt end_dt (world s) in
    (r, mkstate w (trace s ++ [Fetch start_dt end_dt])).

Definition now : M datetime :=
  fun s => (datetime_now (world s), s).

(** Lines 136-161, without the [st.cache_data] decorator.  [pd.DataFrame()]
    is the frame with no row. *)
Definition load_statcast_data (start_year end_year : Z) : M (list Event.t) :=
  let start_date := pretty start_year ++ "-03-01" in
  let end_date := pretty end_year ++ "-11-30" in
  _ ← emit (Spinner "Fetching Statcast data... This may take a moment.");
  r ← call_statcast start_date end_date;
  match r with
  | Ok data =>
      _ ← emit (Success "Data loaded successfully!");
      mret data
  | Raised e =>
      _ ← emit (Error ("Error loading data: " ++ e));
      today ← now;
      let new_start_date := strftime_ymd (minus_days today 21) in
      let new_end_date := strftime_ymd today in
      _ ← emit (Spinner ("Trying with a smaller date range: "
                          ++ new_start_date ++ " to " ++ new_end_date ++ "..."));
      r2 ← call_statcast new_start_date new_end_date;
      match r2 with
      | Ok data =>
          _ ← emit (Success "Data loaded successfully with reduced date range!");
          mret data
      | Raised e2 =>
          _ ← emit (Error ("Failed to load data: " ++ e2));
          mret []
      end
  end.

(** The [statcast] calls of a trace, in order. *)
Definition fetches (tr : list effect) : list (string * string) :=
  omap (fun e => match e with Fetch a b => Some (a, b) | _ => None end) tr.

(** The [st.error] messages of a trace, in order. *)
Definition errors (tr : list effect) : list string :=
  omap (fun e => match e with Error m => Some m | _ => None end) tr.

End Loader.

Arguments mkstate {World} world trace.
Arguments world {World} s.
Arguments trace {World} s.

(* ===================================================================== *)
(** * Auxiliary definitions of the statements *)
(* ===================================================================== *)

(** The strict order of [str] comparison, in which the group keys stand. *)
Definition key_lt (a b : string) : Prop := String.compare a b = Lt.

(** The rows each operation selects before it groups (lines 188 and 230). *)
Definition player_rows (data : list Pitch.t) (player_name : string) (year : Z) : list Pitch.t :=
  filter (fun p => Pitch.player_name p = Some player_name /\ Pitch.game_year p = year) data.

Definition year_rows (data : list Pitch.t) (year : Z) : list Pitch.t :=
  filter (fun p => Pitch.game_year p = year) data.

(** What both operations do with the selected rows (lines 191-225 and
    233-267 are the same statements). *)
Definition aggregate_frame (selected : list Pitch.t) (min_pitches : Z) : list AggregateRow.t :=
  add_pitch_name <$>
    filter (fun r => Rated.total_pitches r >= min_pitches)
      (add_out_percentage <$> agg_sum_count selected).

(** The number of rows of code [k], and of those flagged as outs. *)
Definition pitches_of (selected : list Pitch.t) (k : string) : Z :=
  Z.of_nat (length (filter (fun p => Pitch.pitch_type p = Some k) selected)).

Definition outs_of (selected : list Pitch.t) (k : string) : Z :=
  Z.of_nat (length (filter (fun p => Pitch.IsOutPitch p = true)
                      (filter (fun p => Pitch.pitch_type p = Some k) selected))).

(** The output row of the group of key [k]. *)
Definition group_row (selected : list Pitch.t) (k : string) : AggregateRow.t :=
  AggregateRow.mk k (outs_of selected k) (pitches_of selected k)
    (out_percentage_of (outs_of selected k) (pitches_of selected k))
    (pitch_name_of k).

(** What trimming means, stated on the string itself: [t] is [s] without a
    leading and a trailing run of whitespace, and [t] neither starts nor
    ends with whitespace. *)
Module Trim.

Fixpoint all_space (s : string) : bool :=
  match s with
  | EmptyString => true
  | String c rest => Py.isspace c && all_space rest
  end.

Definition starts_with_space (s : string) : bool :=
  match s with
  | EmptyString => false
  | String c _ => Py.isspace c
  end.

Fixpoint ends_with_space (s : string) : bool :=
  match s with
  | EmptyString => false
  | String c EmptyString => Py.isspace c
  | String _ rest => ends_with_space rest
  end.

Definition trim_of (t s : string) : Prop :=
  exists l r, s = l ++ t ++ r
              /\ all_space l = true /\ all_space r = true
              /\ starts_with_space t = false /\ ends_with_space t = false.

End Trim.

(** The scenario of the specification (three four-seam fastballs, two of
    them outs, and one slider), thrown by one pitcher in one season, with
    three more rows: a pitch of unknown code, a pitch whose code is missing,
    and a pitch of another pitcher. *)
Definition sample_events : list Event.t :=
  [ Event.mk (Some "Cole, Gerrit") 2023 (Some "FF") (Some "strikeout");
    Event.mk (Some "Cole, Gerrit") 2023 (Some "FF") (Some "ball");
    Event.mk (Some "Cole, Gerrit") 2023 (Some "FF") (Some "field_out");
    Event.mk (Some "Cole, Gerrit") 2023 (Some "SL") (Some "single");
    Event.mk (Some "Cole, Gerrit") 2023 (Some "XY") None;
    Event.mk (Some "Cole, Gerrit") 2023 None (Some "strikeout");
    Event.mk (Some "Judge, Aaron") 2023 (Some "SL") (Some "field_out") ].

Definition sample_data : list Pitch.t := calculate_out_percentage sample_events.

Definition sample_FF_row : AggregateRow.t :=
  AggregateRow.mk "FF" 2 3 (out_percentage_of 2 3) "Four-Seam Fastball".

Definition sample_SL_row : AggregateRow.t :=
  AggregateRow.mk "SL" 1 2 (out_percentage_of 1 2) "Slider".

Definition sample_XY_row : AggregateRow.t :=
  AggregateRow.mk "XY" 0 1 (out_percentage_of 0 1) "XY".

(** A scripted world: the outcomes the next [statcast] calls will have, and
    today as a day number (dates are day numbers here, printed in decimal).
    A call consumes the first outcome, and raises once the script is over. *)
Definition scripted : Type := list (result (list Event.t)) * Z.

Definition scripted_statcast (start_dt end_dt : string) (w : scripted)
  : result (list Event.t) * scripted :=
  match fst w with
  | [] => (Raised "no data", w)
  | r :: rest => (r, (rest, snd w))
  end.

Definition scripted_load (start_year end_year : Z) (w : scripted)
  : list Event.t * state scripted :=
  load_statcast_data scripted Z scripted_statcast snd Z.sub pretty
    start_year end_year (mkstate w []).

(* ===================================================================== *)
(** * More Python and pandas operations, used by the page script *)
(* ===================================================================== *)

#[global] Instance result_ret : MRet result := fun A a => Ok a.
#[global] Instance result_bind : MBind result :=
  fun A B f r => match r with Ok a => f a | Raised msg => Raised msg end.

Module PyBuiltins.

(** [sorted(l)] on strings: ascending order of [str] comparison, equal
    elements all kept. *)
Fixpoint insort (k : string) (ks : list string) : list string :=
  match ks with
  | [] => [k]
  | k' :: rest =>
      match String.compare k k' with
      | Gt => k' :: insort k rest
      | _ => k :: ks
      end
  end.

Definition sorted (l : list string) : list string := foldr insort [] l.

(** [list(range(start, stop, step))]; a zero [step] raises [ValueError]. *)
Definition range (start stop step : Z) : result (list Z) :=
  if (step =? 0)%Z then Raised "range() arg 3 must not be zero"
  else
    let n :=
      if (0 <? step)%Z
      then (if (start <? stop)%Z then (stop - start - 1) / step + 1 else 0)
      else (if (stop <? start)%Z then (start - stop - 1) / (- step) + 1 else 0) in
    Ok ((fun i => start + Z.of_nat i * step) <$> seq 0 (Z.to_nat n)).

(** A [dict] from [str] to [str]: its items in insertion order.  Assigning
    to a key that is present replaces the value where the key stands. *)
Definition dict : Type := list (string * string).

Fixpoint dict_set (k v : string) (d : dict) : dict :=
  match d with
  | [] => [(k, v)]
  | (k', v') :: rest =>
      if decide (k = k') then (k, v) :: rest else (k', v') :: dict_set k v rest
  end.

Definition dict_keys (d : dict) : list string := fst <$> d.
Definition dict_values (d : dict) : list string := snd <$> d.

(** [d[k]], which raises [KeyError] on a key that is absent. *)
Fixpoint dict_getitem (d : dict) (k : string) : result string :=
  match d with
  | [] => Raised "KeyError"
  | (k', v) :: rest => if decide (k = k') then Ok v else dict_getitem rest k
  end.

(** [{key(x): value(x) for x in items}], filling [d]: for each item the key
    is evaluated, then the value, then the entry is assigned. *)
Fixpoint dict_comprehension (key value : string -> result string)
    (items : list string) (d : dict) : result dict :=
  match items with
  | [] => Ok d
  | x :: rest =>
      k ← key x;
      v ← value x;
      dict_comprehension key value rest (dict_set k v d)
  end.

End PyBuiltins.

Module PdSeries.

(** [Series.dropna().unique()] on an object column: the values present, each
    once, in order of first appearance. *)
Fixpoint unique (l : list string) : list string :=
  match l with
  | [] => []
  | x :: rest => x :: filter (fun y => y <> x) (unique rest)
  end.

(** [Series.sum()] on an [int64] column. *)
Definition sum (l : list Z) : Z := foldr Z.add 0 l.

End PdSeries.

(* ===================================================================== *)
(** * The page script (lines 270-478) *)
(* ===================================================================== *)

(** Line 276: the options of the year box,
    [list(range(current_year, 2014, -1))]. *)
Definition year_options (current_year : Z) : result (list Z) :=
  PyBuiltins.range current_year 2014 (-1).

(** Line 301: [sorted(processed_data['player_name'].dropna().unique())]. *)
Definition player_names (processed_data : list Pitch.t) : list string :=
  PyBuiltins.sorted (PdSeries.unique (omap Pitch.player_name processed_data)).

(** Line 301: [{name: format_player_name(name) for name in ...}]. *)
Definition player_names_dict (processed_data : list Pitch.t) : result PyBuiltins.dict :=
  PyBuiltins.dict_comprehension Ok format_player_name (player_names processed_data) [].

(** Line 304:
    [{format_player_name(name): name for name in player_names_dict.keys()}]. *)
Definition formatted_to_original (processed_data : list Pitch.t) : result PyBuiltins.dict :=
  d ← player_names_dict processed_data;
  PyBuiltins.dict_comprehension format_player_name Ok (PyBuiltins.dict_keys d) [].

(** Line 307: [sorted(player_names_dict.values())], the options of the
    player box. *)
Definition formatted_player_names (processed_data : list Pitch.t) : result (list string) :=
  d ← player_names_dict processed_data;
  Ok (PyBuiltins.sorted (PyBuiltins.dict_values d)).

(** Lines 308-311.  [st.selectbox] returns one of its options, or [None] when
    it has none; [selected_formatted_player] is that value, and indexing the
    dictionary with [None] raises [KeyError]. *)
Definition selected_player (processed_data : list Pitch.t)
    (selected_formatted_player : option string) : result string :=
  m ← formatted_to_original processed_data;
  match selected_formatted_player with
  | Some s => PyBuiltins.dict_getitem m s
  | None => Raised "KeyError"
  end.

(** Lines 348-350: the three values of the summary table,
    [total_pitches], [total_outs] and [overall_out_pct]. *)
Definition summary_statistics (pitch_results : list AggregateRow.t) : Z * Z * float :=
  let total_pitches := PdSeries.sum (AggregateRow.total_pitches <$> pitch_results) in
  let total_outs := PdSeries.sum (AggregateRow.out_pitch_count <$> pitch_results) in
  let overall_out_pct := out_percentage_of total_outs total_pitches in
  (total_pitches, total_outs, overall_out_pct).

(** An entry of [comparison_data] (lines 421-432). *)
Module Comparison.
Record t : Type := mk {
  Pitch_Type : string;
  Out_Percentage : float;
  Category : string
}.
End Comparison.

(** Line 410: [pitch_results[pitch_results['pitch_type'] == pitch_type].iloc[0]],
    which raises [IndexError] when no row has the code. *)
Definition first_row_of (frame : list AggregateRow.t) (pitch_type : string)
  : result AggregateRow.t :=
  match filter (fun r => AggregateRow.pitch_type r = pitch_type) frame with
  | r :: _ => Ok r
  | [] => Raised "single positional indexer is out-of-bounds"
  end.

(** Lines 413-418: the league's percentage for the code, or 0 when the
    league frame has no row of it. *)
Definition league_pct_of (league_avg : list AggregateRow.t) (pitch_type : string) : float :=
  match filter (fun r => AggregateRow.pitch_type r = pitch_type) league_avg with
  | league_row :: _ => AggregateRow.out_percentage league_row
  | [] => 0%float
  end.

(** Lines 403-432: the loop over [sorted_pitch_types], the codes of
    [pitch_results] in the order [sort_values] gave them. *)
Fixpoint comparison_data (pitch_results league_avg : list AggregateRow.t)
    (selected_formatted_player : string) (sorted_pitch_types : list string)
  : result (list Comparison.t) :=
  match sorted_pitch_types with
  | [] => Ok []
  | pitch_type :: rest =>
      player_row ← first_row_of pitch_results pitch_type;
      let league_pct := league_pct_of league_avg pitch_type in
      entries ← comparison_data pitch_results league_avg selected_formatted_player rest;
      Ok (Comparison.mk (AggregateRow.pitch_name player_row)
            (AggregateRow.out_percentage player_row) selected_formatted_player
          :: Comparison.mk (AggregateRow.pitch_name player_row) league_pct "League Average"
          :: entries)
  end.

(* ===================================================================== *)
(** * Auxiliary definitions of the further statements *)
(* ===================================================================== *)

(** The formatted name as a string (the fallback is never taken:
    [format_player_name] does not raise). *)
Definition display_name (name : string) : string :=
  match format_player_name name with
  | Ok formatted => formatted
  | Raised _ => name
  end.




(** Two spellings of one name: the one with the space is the smaller, so the
    shared option never selects it. *)
Definition alike_data : list Pitch.t :=
  calculate_out_percentage
    [ Event.mk (Some "Judge,Aaron") 2023 (Some "FF") None;
      Event.mk (Some "Judge, Aaron") 2023 (Some "SL") None ].

(* ===================================================================== *)
(** * The order on strings *)
(* ===================================================================== *)

Lemma ascii_compare_refl (a : ascii) : Ascii.compare a a = Eq.
Proof. unfold Ascii.compare. apply N.compare_refl. Qed.

Lemma ascii_compare_lt_trans (a b c : ascii) :
  Ascii.compare a b = Lt -> Ascii.compare b c = Lt -> Ascii.compare a c = Lt.
Proof. unfold Ascii.compare. rewrite !N.compare_lt_iff. lia. Qed.

Lemma string_compare_refl (s : string) : String.compare s s = Eq.
Proof.
  induction s as [|a s IH]; simpl; [done|].
  by rewrite ascii_compare_refl.
Qed.

Lemma string_compare_eq (s1 s2 : string) : String.compare s1 s2 = Eq <-> s1 = s2.
Proof.
  split; [apply String.compare_eq_iff|].
  intros ->. apply string_compare_refl.
Qed.

Lemma string_compare_gt_lt (s1 s2 : string) :
  String.compare s1 s2 = Gt <-> String.compare s2 s1 = Lt.
Proof.
  rewrite (String.compare_antisym s2 s1).
  destruct (String.compare s1 s2); simpl; split; congruence.
Qed.

Lemma string_compare_lt_gt (s1 s2 : string) :
  String.compare s1 s2 = Lt -> String.compare s2 s1 = Gt.
Proof. apply string_compare_gt_lt. Qed.

Lemma string_compare_lt_trans (s1 s2 s3 : string) :
  String.compare s1 s2 = Lt -> String.compare s2 s3 = Lt -> String.compare s1 s3 = Lt.
Proof.
  revert s2 s3.
  induction s1 as [|a s1 IH]; intros [|b s2] [|c s3]; simpl; try congruence.
  destruct (Ascii.compare a b) eqn:Hab; try congruence.
  - apply Ascii.compare_eq_iff in Hab as ->.
    destruct (Ascii.compare b c); try congruence. apply IH.
  - destruct (Ascii.compare b c) eqn:Hbc; try congruence.
    + apply Ascii.compare_eq_iff in Hbc as <-. by rewrite Hab.
    + by rewrite (ascii_compare_lt_trans _ _ _ Hab Hbc).
Qed.

Lemma string_compare_lt_irrefl (s : string) : String.compare s s <> Lt.
Proof. by rewrite string_compare_refl. Qed.

(** Comparisons in the goal are decided from the hypotheses where they can
    be, and split otherwise; a cycle of strict comparisons closes the goal. *)
Ltac cmp_norm :=
  repeat match goal with
    | H : String.compare _ _ = Eq |- _ => apply string_compare_eq in H; subst
    | H : String.compare _ _ = Gt |- _ => apply string_compare_gt_lt in H
    end.

Ltac cmp_absurd :=
  match goal with
  | H : String.compare ?x ?x = Lt |- _ => by apply string_compare_lt_irrefl in H
  | H1 : String.compare ?x ?y = Lt, H2 : String.compare ?y ?x = Lt |- _ =>
      by pose proof (string_compare_lt_irrefl x (string_compare_lt_trans _ _ _ H1 H2))
  | H1 : String.compare ?x ?y = Lt, H2 : String.compare ?y ?z = Lt,
    H3 : String.compare ?z ?x = Lt |- _ =>
      by pose proof (string_compare_lt_irrefl x
           (string_compare_lt_trans _ _ _ H1 (string_compare_lt_trans _ _ _ H2 H3)))
  end.

Ltac cmp_step :=
  first
    [ cmp_absurd
    | rewrite string_compare_refl
    | match goal with
      | H : String.compare ?x ?y = Lt |- context [String.compare ?x ?y] => rewrite H
      | H : String.compare ?x ?y = Lt |- context [String.compare ?y ?x] =>
          rewrite (string_compare_lt_gt _ _ H)
      | |- context [String.compare ?x ?y] =>
          let H := fresh "Hcmp" in destruct (String.compare x y) eqn:H; cmp_norm
      end ];
  simpl.

(* ===================================================================== *)
(** * Group keys and groups *)
(* ===================================================================== *)

Section Groups.
Import Pd.

Lemma elem_of_insert_key (x k : string) (ks : list string) :
  x ∈ insert_key k ks <-> x = k \/ x ∈ ks.
Proof.
  induction ks as [|k' ks IH]; simpl.
  - rewrite list_elem_of_singleton, elem_of_nil. tauto.
  - destruct (String.compare k k') eqn:Hc.
    + apply string_compare_eq in Hc as ->. rewrite elem_of_cons. tauto.
    + rewrite !elem_of_cons. tauto.
    + rewrite !elem_of_cons, IH. tauto.
Qed.

Lemma insert_key_comm (a b : string) (ks : list string) :
  insert_key a (insert_key b ks) = insert_key b (insert_key a ks).
Proof.
  induction ks as [|c ks IH]; simpl; repeat cmp_step; congruence.
Qed.

Lemma elem_of_sorted_keys (x : string) (l : list string) :
  x ∈ foldr insert_key [] l <-> x ∈ l.
Proof.
  induction l as [|k l IH]; simpl; [done|].
  rewrite elem_of_insert_key, elem_of_cons, IH. tauto.
Qed.

Lemma sorted_keys_Permutation (l1 l2 : list string) :
  l1 ≡ₚ l2 -> foldr insert_key [] l1 = foldr insert_key [] l2.
Proof.
  induction 1 as [|x l1 l2 _ IH|x y l|l1 l2 l3 _ IH1 _ IH2]; simpl.
  - done.
  - by rewrite IH.
  - apply insert_key_comm.
  - by rewrite IH1.
Qed.

(** A key of the grouping is the [pitch_type] of some row, and not missing. *)
Lemma elem_of_group_keys (rows : list Pitch.t) (k : string) :
  k ∈ group_keys rows <-> exists p, p ∈ rows /\ Pitch.pitch_type p = Some k.
Proof.
  unfold group_keys. rewrite elem_of_sorted_keys. apply list_elem_of_omap.
Qed.

Lemma group_keys_Permutation (rows rows' : list Pitch.t) :
  rows ≡ₚ rows' -> group_keys rows = group_keys rows'.
Proof.
  intros Hp. unfold group_keys. apply sorted_keys_Permutation.
  by apply omap_Permutation.
Qed.

Lemma insert_key_sorted (k : string) (ks : list string) :
  StronglySorted key_lt ks -> StronglySorted key_lt (insert_key k ks).
Proof.
  induction 1 as [|k' ks Hs IH Hall]; simpl.
  - repeat constructor.
  - destruct (String.compare k k') eqn:Hc.
    + by constructor.
    + constructor; [by constructor|]. constructor; [done|].
      eapply Forall_impl; [exact Hall|].
      intros x Hx. by apply (string_compare_lt_trans _ k').
    + constructor; [done|]. apply Forall_forall.
      intros x [->|Hx]%elem_of_insert_key.
      * by apply string_compare_gt_lt.
      * by apply (proj1 (Forall_forall _ _) Hall).
Qed.

(** The keys stand in strictly ascending order, so each stands once. *)
Lemma group_keys_sorted (rows : list Pitch.t) : StronglySorted key_lt (group_keys rows).
Proof.
  unfold group_keys.
  induction (omap Pitch.pitch_type rows) as [|k l IH]; simpl; [constructor|].
  by apply insert_key_sorted.
Qed.

Lemma sorted_keys_NoDup (ks : list string) : StronglySorted key_lt ks -> NoDup ks.
Proof.
  induction 1 as [|k ks Hs IH Hall]; constructor; [|done].
  intros Hin. apply (proj1 (Forall_forall _ _) Hall) in Hin.
  by apply string_compare_lt_irrefl in Hin.
Qed.

Lemma sorted_keys_filter (P : string -> Prop) `{!forall k, Decision (P k)} (ks : list string) :
  StronglySorted key_lt ks -> StronglySorted key_lt (filter P ks).
Proof.
  induction 1 as [|k ks Hs IH Hall]; [constructor|].
  rewrite filter_cons. destruct (decide (P k)); [|done].
  constructor; [done|]. apply Forall_forall.
  intros x [_ Hx]%list_elem_of_filter. by apply (proj1 (Forall_forall _ _) Hall).
Qed.

Lemma elem_of_get_group (rows : list Pitch.t) (k : string) (p : Pitch.t) :
  p ∈ get_group rows k <-> Pitch.pitch_type p = Some k /\ p ∈ rows.
Proof.
  unfold get_group.
  apply (list_elem_of_filter (fun q => Pitch.pitch_type q = Some k)).
Qed.

Lemma get_group_nonempty (rows : list Pitch.t) (k : string) :
  k ∈ group_keys rows -> (0 < length (get_group rows k))%nat.
Proof.
  intros (p & Hp & Hk)%elem_of_group_keys.
  assert (Hin : p ∈ get_group rows k) by by apply elem_of_get_group.
  destruct (get_group rows k); [by apply elem_of_nil in Hin | simpl; lia].
Qed.

Lemma sum_bounds (flags : list bool) : 0 <= sum flags <= count flags.
Proof.
  unfold count. induction flags as [|b flags IH]; simpl; [lia|].
  destruct b; simpl; lia.
Qed.

Lemma sum_Permutation (f1 f2 : list bool) : f1 ≡ₚ f2 -> sum f1 = sum f2.
Proof.
  induction 1 as [|x l1 l2 _ IH|x y l|l1 l2 l3 _ IH1 _ IH2]; simpl; lia.
Qed.

Lemma count_Permutation (f1 f2 : list bool) : f1 ≡ₚ f2 -> count f1 = count f2.
Proof. intros Hp. unfold count. by rewrite Hp. Qed.

(** ['sum'] over a boolean column counts its [True] cells. *)
Lemma sum_count_true (flags : list bool) :
  sum flags = Z.of_nat (length (filter (fun b => b = true) flags)).
Proof.
  induction flags as [|b flags IH]; simpl; [done|].
  rewrite filter_cons.
  destruct b; [rewrite decide_True by done | rewrite decide_False by done];
    cbn [length Z.b2z]; lia.
Qed.

End Groups.

(* ===================================================================== *)
(** * The shape of the aggregation's output *)
(* ===================================================================== *)

Lemma get_out_percentage_by_pitch_type_frame data player_name year min_pitches :
  get_out_percentage_by_pitch_type data player_name year min_pitches
  = aggregate_frame (player_rows data player_name year) min_pitches.
Proof. reflexivity. Qed.

Lemma get_league_avg_out_percentage_frame data year min_pitches :
  get_league_avg_out_percentage data year min_pitches
  = aggregate_frame (year_rows data year) min_pitches.
Proof. reflexivity. Qed.

Lemma sum_flags_outs_of (selected : list Pitch.t) (k : string) :
  Pd.sum (Pitch.IsOutPitch <$> Pd.get_group selected k) = outs_of selected k.
Proof.
  unfold outs_of, Pd.get_group.
  induction (filter (fun p => Pitch.pitch_type p = Some k) selected) as [|p l IH];
    [done|].
  rewrite fmap_cons, filter_cons. unfold Pd.sum in *. cbn [foldr]. rewrite IH.
  destruct (Pitch.IsOutPitch p);
    [rewrite decide_True by done | rewrite decide_False by done];
    cbn [length Z.b2z]; lia.
Qed.

Lemma count_flags_pitches_of (selected : list Pitch.t) (k : string) :
  Pd.count (Pitch.IsOutPitch <$> Pd.get_group selected k) = pitches_of selected k.
Proof. unfold Pd.count, pitches_of, Pd.get_group. by rewrite length_fmap. Qed.

Lemma elem_of_agg_sum_count (selected : list Pitch.t) (c : Counts.t) :
  c ∈ agg_sum_count selected <->
  exists k, k ∈ Pd.group_keys selected
            /\ c = Counts.mk k (outs_of selected k) (pitches_of selected k).
Proof.
  unfold agg_sum_count, Pd.groupby_pitch_type.
  rewrite <- list_fmap_compose, list_elem_of_fmap. simpl.
  split.
  - intros (k & -> & Hk). exists k.
    by rewrite sum_flags_outs_of, count_flags_pitches_of.
  - intros (k & Hk & ->). exists k.
    by rewrite sum_flags_outs_of, count_flags_pitches_of.
Qed.

(** The rows of the output are the rows of the groups that reach the
    threshold. *)
Lemma elem_of_aggregate_frame (selected : list Pitch.t) (min_pitches : Z) (r : AggregateRow.t) :
  r ∈ aggregate_frame selected min_pitches <->
  exists k, k ∈ Pd.group_keys selected
            /\ min_pitches <= pitches_of selected k
            /\ r = group_row selected k.
Proof.
  unfold aggregate_frame. rewrite list_elem_of_fmap. split.
  - intros (rated & -> & Hin).
    apply (list_elem_of_filter (fun r => Rated.total_pitches r >= min_pitches)) in Hin
      as [Hmin Hin].
    apply list_elem_of_fmap in Hin as (c & -> & Hc).
    apply elem_of_agg_sum_count in Hc as (k & Hk & ->).
    exists k. simpl in Hmin. split; [done|]. split; [lia | done].
  - intros (k & Hk & Hmin & ->).
    exists (add_out_percentage (Counts.mk k (outs_of selected k) (pitches_of selected k))).
    split; [done|].
    apply (list_elem_of_filter (fun r => Rated.total_pitches r >= min_pitches)).
    split; [simpl; lia|].
    apply list_elem_of_fmap_2, elem_of_agg_sum_count. by exists k.
Qed.

Lemma agg_sum_count_keys (selected : list Pitch.t) :
  agg_sum_count selected
  = (fun k => Counts.mk k (outs_of selected k) (pitches_of selected k))
      <$> Pd.group_keys selected.
Proof.
  unfold agg_sum_count, Pd.groupby_pitch_type.
  rewrite <- list_fmap_compose. apply list_fmap_ext. intros _ k _. simpl.
  by rewrite sum_flags_outs_of, count_flags_pitches_of.
Qed.

(** The output, row for row: the groups that reach the threshold, in key
    order. *)
Lemma aggregate_frame_rows (selected : list Pitch.t) (min_pitches : Z) :
  aggregate_frame selected min_pitches
  = group_row selected
      <$> filter (fun k => pitches_of selected k >= min_pitches) (Pd.group_keys selected).
Proof.
  unfold aggregate_frame. rewrite agg_sum_count_keys.
  induction (Pd.group_keys selected) as [|k ks IH]; [done|].
  rewrite !fmap_cons, !filter_cons. cbn [add_out_percentage Rated.total_pitches
    Counts.total_pitches Counts.pitch_type Counts.out_pitch_count].
  destruct (decide (pitches_of selected k >= min_pitches)).
  - rewrite !fmap_cons, IH. done.
  - apply IH.
Qed.

Lemma aggregate_frame_pitch_types (selected : list Pitch.t) (min_pitches : Z) :
  AggregateRow.pitch_type <$> aggregate_frame selected min_pitches
  = filter (fun k => pitches_of selected k >= min_pitches) (Pd.group_keys selected).
Proof.
  rewrite aggregate_frame_rows, <- list_fmap_compose.
  induction (filter _ _) as [|k ks IH]; [done|].
  by rewrite fmap_cons, IH.
Qed.

(** The rows of the output stand in ascending order of [pitch_type], one
    row to a pitch type. *)
Lemma aggregate_frame_sorted (selected : list Pitch.t) (min_pitches : Z) :
  StronglySorted key_lt (AggregateRow.pitch_type <$> aggregate_frame selected min_pitches).
Proof.
  rewrite aggregate_frame_pitch_types.
  apply (sorted_keys_filter _), group_keys_sorted.
Qed.

Lemma aggregate_frame_NoDup (selected : list Pitch.t) (min_pitches : Z) :
  NoDup (AggregateRow.pitch_type <$> aggregate_frame selected min_pitches).
Proof. apply sorted_keys_NoDup, aggregate_frame_sorted. Qed.

Lemma outs_of_bounds (selected : list Pitch.t) (k : string) :
  0 <= outs_of selected k <= pitches_of selected k.
Proof.
  unfold outs_of, pitches_of.
  pose proof (length_filter (fun p => Pitch.IsOutPitch p = true)
                (filter (fun p => Pitch.pitch_type p = Some k) selected)).
  lia.
Qed.

Lemma pitches_of_key_pos (selected : list Pitch.t) (k : string) :
  k ∈ Pd.group_keys selected -> 1 <= pitches_of selected k.
Proof.
  intros Hk%get_group_nonempty. unfold pitches_of, Pd.get_group in *. lia.
Qed.

(* ===================================================================== *)
(** * The sample frame, computed *)
(* ===================================================================== *)

Example sample_by_player :
  get_out_percentage_by_pitch_type sample_data "Cole, Gerrit" 2023 2 = [sample_FF_row].
Proof. vm_compute. reflexivity. Qed.

Example sample_league :
  get_league_avg_out_percentage sample_data 2023 2 = [sample_FF_row; sample_SL_row].
Proof. vm_compute. reflexivity. Qed.

Example sample_league_min_1 :
  get_league_avg_out_percentage sample_data 2023 1
  = [sample_FF_row; sample_SL_row; sample_XY_row].
Proof. vm_compute. reflexivity. Qed.

(** Two outs in three pitches are 66.67 percent.  23 outs in 160 pitches are
    14.375 percent exactly, a tie between 14.37 and 14.38: the [float64]
    computation yields 14.37. *)
#[warnings="-inexact-float"] Example out_percentage_2_of_3 :
  out_percentage_of 2 3 = 66.67%float.
Proof. vm_compute. reflexivity. Qed.

#[warnings="-inexact-float"] Example out_percentage_23_of_160 :
  out_percentage_of 23 160 = 14.37%float.
Proof. vm_compute. reflexivity. Qed.

(* ===================================================================== *)
(** * Classification *)
(* ===================================================================== *)

(** C1.  [calculate_out_percentage] flags a pitch exactly when its [events]
    cell is one of the thirteen out events; a missing cell is flagged false;
    every row of the input gets its flag (the operation is total, with one
    output row per input row, in order). *)
Theorem calculate_out_percentage_flags_out_events :
  (forall (data : list Event.t) (i : nat) (e : Event.t),
      data !! i = Some e ->
      exists p, calculate_out_percentage data !! i = Some p
                /\ Pitch.event p = e
                /\ (Pitch.IsOutPitch p = true <->
                    exists s, Event.events e = Some s
                              /\ s ∈ [ "field_out"; "strikeout"; "grounded_into_double_play";
                                       "fielders_choice_out"; "force_out"; "sac_fly";
                                       "sac_bunt"; "strikeout_double_play"; "double_play";
                                       "sac_fly_double_play"; "other_out"; "triple_play";
                                       "sac_bunt_double_play" ])
                /\ (Event.events e = None -> Pitch.IsOutPitch p = false))
  /\ (forall data : list Event.t,
        length (calculate_out_percentage data) = length data)
  /\ length out_events = 13%nat
  /\ NoDup out_events.
Proof.
  split; [|split; [|split]].
  - intros data i e Hi.
    exists (Pitch.mk e (is_out_pitch e)). split.
    + unfold calculate_out_percentage. by rewrite list_lookup_fmap, Hi.
    + split; [done|]. simpl. unfold is_out_pitch, Pd.isin. split.
      * destruct (Event.events e) as [s|]; [|by split; [|intros (s & ? & _)]].
        rewrite bool_decide_eq_true. split.
        -- intros Hs. by exists s.
        -- by intros (s' & [= <-] & Hs).
      * by intros ->.
  - intros data. unfold calculate_out_percentage. apply length_fmap.
  - reflexivity.
  - apply (bool_decide_unpack _). vm_compute. exact I.
Qed.

(* ===================================================================== *)
(** * Counts, percentage and threshold *)
(* ===================================================================== *)



(** C3.  No row of either output has fewer pitches than [min_pitches], and a
    pitch type whose group is below the threshold has no row at all. *)
Theorem min_pitches_threshold
    (data : list Pitch.t) (player_name : string) (year min_pitches : Z) :
  (forall r, r ∈ get_out_percentage_by_pitch_type data player_name year min_pitches ->
             ~ AggregateRow.total_pitches r < min_pitches)
  /\ (forall r, r ∈ get_league_avg_out_percentage data year min_pitches ->
                ~ AggregateRow.total_pitches r < min_pitches)
  /\ (forall k, pitches_of (player_rows data player_name year) k < min_pitches ->
                forall r, r ∈ get_out_percentage_by_pitch_type data player_name year min_pitches ->
                          AggregateRow.pitch_type r <> k)
  /\ (forall k, pitches_of (year_rows data year) k < min_pitches ->
                forall r, r ∈ get_league_avg_out_percentage data year min_pitches ->
                          AggregateRow.pitch_type r <> k).
Proof.
  rewrite get_out_percentage_by_pitch_type_frame, get_league_avg_out_percentage_frame.
  repeat split.
  - intros r (k & _ & Hmin & ->)%elem_of_aggregate_frame. simpl. lia.
  - intros r (k & _ & Hmin & ->)%elem_of_aggregate_frame. simpl. lia.
  - intros k Hlow r (k' & _ & Hmin & ->)%elem_of_aggregate_frame. simpl.
    intros ->. lia.
  - intros k Hlow r (k' & _ & Hmin & ->)%elem_of_aggregate_frame. simpl.
    intros ->. lia.
Qed.

(** The slider group of the sample (one pitch by the pitcher, two in the
    league) at threshold 2 and 3. *)
Lemma min_pitches_threshold_sample :
  (forall r, r ∈ get_out_percentage_by_pitch_type sample_data "Cole, Gerrit" 2023 2 ->
             AggregateRow.pitch_type r <> "SL")
  /\ (forall r, r ∈ get_league_avg_out_percentage sample_data 2023 3 ->
                AggregateRow.pitch_type r <> "SL").
Proof.
  split.
  - apply (min_pitches_threshold sample_data "Cole, Gerrit" 2023 2). reflexivity.
  - apply (min_pitches_threshold sample_data "Cole, Gerrit" 2023 3). reflexivity.
Defined.

(** C4.  The ratio of lines 197 and 239 is computed on the rows of
    [agg_sum_count], one per group, and every such row counts at least one
    pitch, whatever [min_pitches] is: a group exists only for a code some
    selected row carries.  So does every row returned. *)
Theorem ratio_divides_by_positive_count
    (data : list Pitch.t) (player_name : string) (year : Z) :
  (forall min_pitches,
      get_out_percentage_by_pitch_type data player_name year min_pitches
      = add_pitch_name <$>
          filter (fun r => Rated.total_pitches r >= min_pitches)
            (add_out_percentage <$> agg_sum_count (player_rows data player_name year)))
  /\ (forall min_pitches,
        get_league_avg_out_percentage data year min_pitches
        = add_pitch_name <$>
            filter (fun r => Rated.total_pitches r >= min_pitches)
              (add_out_percentage <$> agg_sum_count (year_rows data year)))
  /\ Forall (fun c => 1 <= Counts.total_pitches c)
       (agg_sum_count (player_rows data player_name year))
  /\ Forall (fun c => 1 <= Counts.total_pitches c)
       (agg_sum_count (year_rows data year))
  /\ (forall min_pitches,
        Forall (fun r => 1 <= AggregateRow.total_pitches r)
          (get_out_percentage_by_pitch_type data player_name year min_pitches))
  /\ (forall min_pitches,
        Forall (fun r => 1 <= AggregateRow.total_pitches r)
          (get_league_avg_out_percentage data year min_pitches)).
Proof.
  assert (Hcounts : forall selected,
             Forall (fun c => 1 <= Counts.total_pitches c) (agg_sum_count selected)).
  { intros selected. apply Forall_forall.
    intros c (k & Hk & ->)%elem_of_agg_sum_count. simpl.
    by apply pitches_of_key_pos. }
  assert (Hrows : forall selected min_pitches,
             Forall (fun r => 1 <= AggregateRow.total_pitches r)
               (aggregate_frame selected min_pitches)).
  { intros selected min_pitches. apply Forall_forall.
    intros r (k & Hk & _ & ->)%elem_of_aggregate_frame. simpl.
    by apply pitches_of_key_pos. }
  repeat split; try done; intros; apply Hrows.
Qed.

(* ===================================================================== *)
(** * Empty selections *)
(* ===================================================================== *)

Lemma filter_none {A : Type} (P : A -> Prop) `{!forall x, Decision (P x)} (l : list A) :
  (forall x, x ∈ l -> ~ P x) -> filter P l = [].
Proof.
  induction l as [|x l IH]; intros Hl; [done|].
  rewrite filter_cons, decide_False by (apply Hl, list_elem_of_here).
  apply IH. intros y Hy. by apply Hl, list_elem_of_further.
Qed.

Lemma aggregate_frame_nil (min_pitches : Z) : aggregate_frame [] min_pitches = [].
Proof. reflexivity. Qed.



(* ===================================================================== *)
(** * Pitch names *)
(* ===================================================================== *)

(** C6.  The name of every returned row is looked up in the table of
    fourteen codes, and a code the table does not hold is its own name. *)
Theorem pitch_name_from_lookup_table :
  (forall data player_name year min_pitches r,
      r ∈ get_out_percentage_by_pitch_type data player_name year min_pitches
      \/ r ∈ get_league_avg_out_percentage data year min_pitches ->
      AggregateRow.pitch_name r
      = match pitch_type_map !! AggregateRow.pitch_type r with
        | Some name => name
        | None => AggregateRow.pitch_type r
        end)
  /\ (forall code name,
        pitch_type_map !! code = Some name <->
        (code, name) ∈ [ ("FF", "Four-Seam Fastball"); ("SL", "Slider"); ("CH", "Changeup");
                         ("CU", "Curveball"); ("SI", "Sinker"); ("FC", "Cutter");
                         ("FS", "Splitter"); ("FT", "Two-Seam Fastball");
                         ("KC", "Knuckle Curve"); ("EP", "Eephus"); ("KN", "Knuckleball");
                         ("SC", "Screwball"); ("ST", "Sweeper"); ("SV", "Slurve") ])
  /\ size pitch_type_map = 14%nat
  /\ (forall data player_name year min_pitches r,
        r ∈ get_out_percentage_by_pitch_type data player_name year min_pitches
        \/ r ∈ get_league_avg_out_percentage data year min_pitches ->
        AggregateRow.pitch_type r = "XY" -> AggregateRow.pitch_name r = "XY").
Proof.
  assert (Hname : forall data player_name year min_pitches r,
      r ∈ get_out_percentage_by_pitch_type data player_name year min_pitches
      \/ r ∈ get_league_avg_out_percentage data year min_pitches ->
      AggregateRow.pitch_name r = pitch_name_of (AggregateRow.pitch_type r)).
  { intros data player_name year min_pitches r.
    rewrite get_out_percentage_by_pitch_type_frame, get_league_avg_out_percentage_frame.
    by intros [Hr|Hr]; apply elem_of_aggregate_frame in Hr as (k & _ & _ & ->). }
  split; [|split; [|split]].
  - intros data player_name year min_pitches r Hr.
    rewrite (Hname _ _ _ _ _ Hr). unfold pitch_name_of.
    by destruct (pitch_type_map !! AggregateRow.pitch_type r).
  - intros code name. unfold pitch_type_map. symmetry.
    apply (elem_of_list_to_map (M := gmap string)).
    apply (bool_decide_unpack _). vm_compute. exact I.
  - unfold pitch_type_map. rewrite map_size_list_to_map; [done|].
    apply (bool_decide_unpack _). vm_compute. exact I.
  - intros data player_name year min_pitches r Hr Hxy.
    rewrite (Hname _ _ _ _ _ Hr), Hxy. reflexivity.
Qed.

Lemma pitch_name_from_lookup_table_sample :
  AggregateRow.pitch_name sample_FF_row = "Four-Seam Fastball"
  /\ AggregateRow.pitch_name sample_XY_row = "XY".
Proof.
  pose proof pitch_name_from_lookup_table as (Hname & _ & _ & Hxy).
  split.
  - rewrite (Hname sample_data "Cole, Gerrit" 2023 1 sample_FF_row); [reflexivity|].
    right. rewrite sample_league_min_1. apply list_elem_of_here.
  - apply (Hxy sample_data "Cole, Gerrit" 2023 1 sample_XY_row); [|reflexivity].
    right. rewrite sample_league_min_1. do 2 apply list_elem_of_further.
    apply list_elem_of_here.
Defined.

(* ===================================================================== *)
(** * Player names *)
(* ===================================================================== *)

Lemma append_String (c : ascii) (s t : string) : String c s ++ t = String c (s ++ t).
Proof. reflexivity. Qed.

Lemma append_EmptyString (t : string) : EmptyString ++ t = t.
Proof. reflexivity. Qed.

Lemma contains_spec (c : ascii) (s : string) :
  Py.contains c s = true <-> c ∈ list_ascii_of_string s.
Proof.
  induction s as [|a s IH]; simpl.
  - rewrite elem_of_nil. split; [discriminate | tauto].
  - rewrite orb_true_iff, elem_of_cons, IH, Ascii.eqb_eq. split; intros [?|?]; auto.
Qed.

Lemma contains_false_spec (c : ascii) (s : string) :
  Py.contains c s = false <-> c ∉ list_ascii_of_string s.
Proof. rewrite <- contains_spec. by destruct (Py.contains c s). Qed.

(** One cut, at the first separator. *)
Lemma split_at_first (c : ascii) (before after : string) :
  Py.contains c before = false ->
  Py.split c (before ++ String c after) 1 = [before; after].
Proof.
  induction before as [|a before IH].
  - intros _. rewrite append_EmptyString. simpl. rewrite Ascii.eqb_refl.
    by destruct after.
  - intros [Ha Hb]%orb_false_iff. rewrite append_String.
    cbn [Py.split]. by rewrite Ha, (IH Hb).
Qed.

Lemma contains_first (c : ascii) (s : string) :
  Py.contains c s = true ->
  exists before after, s = before ++ String c after /\ Py.contains c before = false.
Proof.
  induction s as [|a s IH]; simpl; [discriminate|].
  destruct (Ascii.eqb a c) eqn:Hac; simpl.
  - intros _. apply Ascii.eqb_eq in Hac as ->. by exists EmptyString, s.
  - intros (before & after & -> & Hb)%IH.
    exists (String a before), after. rewrite append_String. simpl. by rewrite Hac, Hb.
Qed.

Lemma lstrip_spec (s : string) :
  exists l, s = l ++ Py.lstrip s
            /\ Trim.all_space l = true
            /\ Trim.starts_with_space (Py.lstrip s) = false.
Proof.
  induction s as [|c s (l & Hs & Hl & Hstart)]; simpl.
  - by exists EmptyString.
  - destruct (Py.isspace c) eqn:Hc.
    + exists (String c l). rewrite append_String, <- Hs. simpl. by rewrite Hc, Hl.
    + exists EmptyString. rewrite append_EmptyString. simpl. by rewrite Hc.
Qed.

Lemma rstrip_spec (s : string) :
  exists r, s = Py.rstrip s ++ r
            /\ Trim.all_space r = true
            /\ Trim.ends_with_space (Py.rstrip s) = false.
Proof.
  induction s as [|c s (r & Hs & Hr & Hend)]; simpl.
  - by exists EmptyString.
  - destruct (Py.rstrip s) as [|d kept] eqn:Hk.
    + rewrite append_EmptyString in Hs. subst r.
      destruct (Py.isspace c) eqn:Hc.
      * exists (String c s). rewrite append_EmptyString. simpl. by rewrite Hc, Hr.
      * exists s. rewrite append_String, append_EmptyString. simpl. by rewrite Hc.
    + exists r. rewrite append_String, <- Hs. by destruct kept.
Qed.

Lemma rstrip_start (s : string) :
  Trim.starts_with_space s = false -> Trim.starts_with_space (Py.rstrip s) = false.
Proof.
  destruct s as [|c s]; simpl; [done|].
  intros Hc. destruct (Py.rstrip s); simpl; [by rewrite Hc | done].
Qed.

Lemma strip_trim_of (s : string) : Trim.trim_of (Py.strip s) s.
Proof.
  unfold Py.strip.
  destruct (lstrip_spec s) as (l & Hs & Hl & Hstart).
  destruct (rstrip_spec (Py.lstrip s)) as (r & Hs' & Hr & Hend).
  exists l, r. repeat split; try done.
  - by rewrite <- Hs'.
  - by apply rstrip_start.
Qed.

Lemma lstrip_all_space (l u : string) :
  Trim.all_space l = true -> Py.lstrip (l ++ u) = Py.lstrip u.
Proof.
  induction l as [|c l IH]; [done|].
  rewrite append_String. simpl. intros [Hc Hl]%andb_true_iff.
  rewrite Hc. by apply IH.
Qed.

Lemma lstrip_no_space (u : string) :
  Trim.starts_with_space u = false -> Py.lstrip u = u.
Proof. destruct u as [|c u]; simpl; [done|]. by intros ->. Qed.

Lemma lstrip_only_space (r : string) : Trim.all_space r = true -> Py.lstrip r = EmptyString.
Proof.
  induction r as [|c r IH]; [done|].
  simpl. intros [Hc Hr]%andb_true_iff. rewrite Hc. by apply IH.
Qed.

Lemma rstrip_only_space (r : string) : Trim.all_space r = true -> Py.rstrip r = EmptyString.
Proof.
  induction r as [|c r IH]; [done|].
  simpl. intros [Hc Hr]%andb_true_iff. by rewrite (IH Hr), Hc.
Qed.

Lemma rstrip_all_space (t r : string) :
  Trim.all_space r = true -> Trim.ends_with_space t = false -> Py.rstrip (t ++ r) = t.
Proof.
  intros Hr. induction t as [|c t IH].
  - intros _. rewrite append_EmptyString. by apply rstrip_only_space.
  - intros Hend. rewrite append_String. cbn [Py.rstrip].
    destruct t as [|d t].
    + rewrite append_EmptyString, (rstrip_only_space _ Hr).
      simpl in Hend. by rewrite Hend.
    + by rewrite IH.
Qed.

(** Trimming has one result, and [strip] computes it. *)
Lemma trim_of_strip (t s : string) : Trim.trim_of t s <-> t = Py.strip s.
Proof.
  split; [|intros ->; apply strip_trim_of].
  intros (l & r & -> & Hl & Hr & Hstart & Hend). unfold Py.strip.
  rewrite (lstrip_all_space _ _ Hl).
  destruct t as [|c t].
  - rewrite append_EmptyString, (lstrip_only_space _ Hr). done.
  - rewrite lstrip_no_space by (by rewrite append_String).
    by rewrite rstrip_all_space.
Qed.

(** C7.  A name without a comma is returned as it is.  A name with a comma
    is cut at its first comma only: what follows it, further commas
    included, is the first name; both parts are trimmed; the result is the
    first name, a space, the last name. *)
Theorem format_player_name_first_comma (name : string) :
  (","%char ∉ list_ascii_of_string name -> format_player_name name = Ok name)
  /\ (","%char ∈ list_ascii_of_string name ->
      exists last_name first_name,
        name = last_name ++ "," ++ first_name
        /\ ","%char ∉ list_ascii_of_string last_name)
  /\ (forall last_name first_name,
        name = last_name ++ "," ++ first_name ->
        ","%char ∉ list_ascii_of_string last_name ->
        format_player_name name = Ok (Py.strip first_name ++ " " ++ Py.strip last_name)
        /\ (forall t, Trim.trim_of t first_name <-> t = Py.strip first_name)
        /\ (forall t, Trim.trim_of t last_name <-> t = Py.strip last_name))
  /\ format_player_name "Judge, Aaron" = Ok "Aaron Judge"
  /\ format_player_name "Smith" = Ok "Smith".
Proof.
  split; [|split; [|split]].
  - intros Hno%contains_false_spec. unfold format_player_name. by rewrite Hno.
  - intros (before & after & -> & Hb)%contains_spec%contains_first.
    exists before, after. split; [done|]. by apply contains_false_spec.
  - intros last_name first_name -> Hlast%contains_false_spec.
    split; [|split; intros t; apply trim_of_strip].
    unfold format_player_name.
    assert (Hin : Py.contains "," (last_name ++ "," ++ first_name) = true).
    { apply contains_spec. clear Hlast.
      induction last_name as [|a l IH]; [apply list_elem_of_here|].
      rewrite append_String. by apply list_elem_of_further. }
    rewrite Hin.
    change (last_name ++ "," ++ first_name) with (last_name ++ String "," first_name).
    by rewrite split_at_first.
  - split; reflexivity.
Qed.

Lemma format_player_name_first_comma_sample :
  format_player_name "Acuna Jr. ,  Ronald, II " = Ok "Ronald, II Acuna Jr."
  /\ format_player_name "Ohtani" = Ok "Ohtani".
Proof.
  split.
  - apply (format_player_name_first_comma "Acuna Jr. ,  Ronald, II ")
      with (last_name := "Acuna Jr. ") (first_name := "  Ronald, II ").
    + reflexivity.
    + apply contains_false_spec. reflexivity.
  - apply format_player_name_first_comma. apply contains_false_spec. reflexivity.
Defined.

(* ===================================================================== *)
(** * Loading with one fallback *)
(* ===================================================================== *)

Section LoaderFacts.

Variable World : Type.
Variable datetime : Type.
Variable statcast : string -> string -> World -> result (list Event.t) * World.
Variable datetime_now : World -> datetime.
Variable minus_days : datetime -> Z -> datetime.
Variable strftime_ymd : datetime -> string.

Local Abbreviation load :=
  (load_statcast_data World datetime statcast datetime_now minus_days strftime_ymd).

(** C8.  The loader calls [statcast] for the requested range first.  If
    that call returns, its frame is the result and nothing else is fetched.
    If it raises, the loader calls [statcast] once more, for the 21 days up
    to today; that call's frame is the result if it returns, and if it
    raises too the result is the empty frame and the error is shown.  No
    run fetches more than twice. *)
Theorem load_statcast_data_two_attempts (start_year end_year : Z) (w : World) :
  let requested := (pretty start_year ++ "-03-01", pretty end_year ++ "-11-30") in
  let run := load start_year end_year (mkstate w []) in
  let loaded := fst run in
  let calls := fetches (trace (snd run)) in
  (length calls <= 2)%nat
  /\ match statcast (fst requested) (snd requested) w with
     | (Ok data, w1) =>
         loaded = data /\ calls = [requested] /\ world (snd run) = w1
         /\ errors (trace (snd run)) = []
     | (Raised e, w1) =>
         let today := datetime_now w1 in
         let fallback := (strftime_ymd (minus_days today 21), strftime_ymd today) in
         match statcast (fst fallback) (snd fallback) w1 with
         | (Ok data, w2) =>
             loaded = data /\ calls = [requested; fallback] /\ world (snd run) = w2
         | (Raised e2, w2) =>
             loaded = [] /\ calls = [requested; fallback] /\ world (snd run) = w2
             /\ last (errors (trace (snd run))) = Some ("Failed to load data: " ++ e2)
         end
     end.
Proof.
  cbv zeta. unfold load_statcast_data, mbind, M_bind, mret, M_ret, emit, call_statcast, now.
  cbn [world trace fst snd].
  destruct (statcast (pretty start_year ++ "-03-01") (pretty end_year ++ "-11-30") w)
    as [[data|e] w1] eqn:H1; cbn [world trace fst snd].
  - split; [simpl; lia | done].
  - destruct (statcast (strftime_ymd (minus_days (datetime_now w1) 21))
                (strftime_ymd (datetime_now w1)) w1) as [[data|e2] w2] eqn:H2;
      cbn [world trace fst snd].
    + split; [simpl; lia | done].
    + split; [simpl; lia | done].
Qed.

End LoaderFacts.

(** Both calls fail: two fetches, the second for the window ending today,
    the empty frame, and both errors shown. *)
Example scripted_load_two_failures :
  let run := scripted_load 2023 2023 ([Raised "timeout"; Raised "bad gateway"; Ok sample_events], 19700) in
  fst run = []
  /\ fetches (trace (snd run)) = [("2023-03-01", "2023-11-30"); ("19679", "19700")]
  /\ errors (trace (snd run)) = ["Error loading data: timeout"; "Failed to load data: bad gateway"].
Proof. vm_compute. repeat split. Qed.

(** The first call fails and the second returns. *)
Example scripted_load_fallback :
  let run := scripted_load 2023 2023 ([Raised "timeout"; Ok sample_events], 19700) in
  fst run = sample_events
  /\ fetches (trace (snd run)) = [("2023-03-01", "2023-11-30"); ("19679", "19700")]
  /\ errors (trace (snd run)) = ["Error loading data: timeout"].
Proof. vm_compute. repeat split. Qed.

Lemma load_statcast_data_two_attempts_sample :
  let run := scripted_load 2023 2023 ([Raised "timeout"; Raised "bad gateway"], 19700) in
  fst run = [] /\ fetches (trace (snd run)) = [("2023-03-01", "2023-11-30"); ("19679", "19700")].
Proof.
  pose proof (load_statcast_data_two_attempts scripted Z scripted_statcast snd Z.sub pretty
                2023 2023 ([Raised "timeout"; Raised "bad gateway"], 19700)) as [_ H].
  cbv zeta in *. vm_compute in H. destruct H as (H1 & H2 & _).
  split; [exact H1 | exact H2].
Defined.

(* ===================================================================== *)
(** * The output as a function of the rows *)
(* ===================================================================== *)

Lemma get_group_Permutation (rows rows' : list Pitch.t) (k : string) :
  rows ≡ₚ rows' -> Pd.get_group rows k ≡ₚ Pd.get_group rows' k.
Proof. intros Hp. unfold Pd.get_group. by rewrite Hp. Qed.

Lemma agg_sum_count_Permutation (rows rows' : list Pitch.t) :
  rows ≡ₚ rows' -> agg_sum_count rows = agg_sum_count rows'.
Proof.
  intros Hp. unfold agg_sum_count, Pd.groupby_pitch_type.
  rewrite <- !list_fmap_compose, (group_keys_Permutation _ _ Hp).
  apply list_fmap_ext. intros _ k _. simpl.
  pose proof (get_group_Permutation _ _ k Hp) as Hg.
  f_equal.
  - apply sum_Permutation. by rewrite Hg.
  - apply count_Permutation. by rewrite Hg.
Qed.

Lemma aggregate_frame_Permutation (rows rows' : list Pitch.t) (min_pitches : Z) :
  rows ≡ₚ rows' -> aggregate_frame rows min_pitches = aggregate_frame rows' min_pitches.
Proof. intros Hp. unfold aggregate_frame. by rewrite (agg_sum_count_Permutation _ _ Hp). Qed.

(** C9.  The frame each operation returns is determined by the rows of the
    dataset, the player, the season and the threshold: two runs over the
    same rows, in whatever order the rows stand, return the same rows in
    the same order. *)
Theorem aggregation_is_a_function_of_the_rows
    (data data' : list Pitch.t) (player_name : string) (year min_pitches : Z) :
  data ≡ₚ data' ->
  get_out_percentage_by_pitch_type data player_name year min_pitches
  = get_out_percentage_by_pitch_type data' player_name year min_pitches
  /\ get_league_avg_out_percentage data year min_pitches
     = get_league_avg_out_percentage data' year min_pitches.
Proof.
  intros Hp.
  rewrite !get_out_percentage_by_pitch_type_frame, !get_league_avg_out_percentage_frame.
  split; apply aggregate_frame_Permutation; unfold player_rows, year_rows; by rewrite Hp.
Qed.

Lemma aggregation_is_a_function_of_the_rows_sample :
  get_out_percentage_by_pitch_type sample_data "Cole, Gerrit" 2023 1
  = get_out_percentage_by_pitch_type (reverse sample_data) "Cole, Gerrit" 2023 1
  /\ get_league_avg_out_percentage sample_data 2023 1
     = get_league_avg_out_percentage (reverse sample_data) 2023 1.
Proof.
  apply aggregation_is_a_function_of_the_rows. symmetry. apply reverse_Permutation.
Defined.

(* ===================================================================== *)
(** * Rows without a pitch type *)
(* ===================================================================== *)

Lemma omap_pitch_type_drop_missing (rows : list Pitch.t) :
  omap Pitch.pitch_type (filter (fun p => Pitch.pitch_type p <> None) rows)
  = omap Pitch.pitch_type rows.
Proof.
  induction rows as [|p rows IH]; [done|].
  rewrite filter_cons. destruct (Pitch.pitch_type p) as [k|] eqn:Hk.
  - rewrite decide_True by done. cbn [omap list_omap]. by rewrite Hk, IH.
  - rewrite decide_False by (intros H; by apply H). cbn [omap list_omap]. by rewrite Hk.
Qed.

Lemma get_group_drop_missing (rows : list Pitch.t) (k : string) :
  Pd.get_group (filter (fun p => Pitch.pitch_type p <> None) rows) k
  = Pd.get_group rows k.
Proof.
  unfold Pd.get_group.
  induction rows as [|p rows IH]; [done|].
  rewrite !filter_cons.
  destruct (decide (Pitch.pitch_type p = Some k)) as [Hk|Hk].
  - rewrite decide_True by (by rewrite Hk).
    by rewrite filter_cons, decide_True, IH by done.
  - destruct (decide (Pitch.pitch_type p <> None)); [|done].
    by rewrite filter_cons, decide_False by done.
Qed.

Lemma agg_sum_count_drop_missing (rows : list Pitch.t) :
  agg_sum_count (filter (fun p => Pitch.pitch_type p <> None) rows) = agg_sum_count rows.
Proof.
  unfold agg_sum_count, Pd.groupby_pitch_type, Pd.group_keys.
  rewrite omap_pitch_type_drop_missing, <- !list_fmap_compose.
  apply list_fmap_ext. intros _ k _. simpl. by rewrite get_group_drop_missing.
Qed.

Lemma filter_comm {A : Type} (P Q : A -> Prop)
    `{!forall x, Decision (P x)} `{!forall x, Decision (Q x)} (l : list A) :
  filter P (filter Q l) = filter Q (filter P l).
Proof.
  induction l as [|x l IH]; [done|].
  rewrite !filter_cons.
  destruct (decide (Q x)), (decide (P x));
    rewrite ?filter_cons, ?decide_True, ?decide_False, ?IH by done; done.
Qed.

(** C10.  A row whose [pitch_type] is missing takes no part in the grouping:
    dropping such rows from the dataset changes neither output; every
    returned row carries the code of some selected row; and its two counts
    are the selected rows of exactly that code, and the outs among them. *)
Theorem missing_pitch_type_is_not_grouped
    (data : list Pitch.t) (player_name : string) (year min_pitches : Z) :
  let typed := filter (fun p => Pitch.pitch_type p <> None) data in
  get_out_percentage_by_pitch_type data player_name year min_pitches
  = get_out_percentage_by_pitch_type typed player_name year min_pitches
  /\ get_league_avg_out_percentage data year min_pitches
     = get_league_avg_out_percentage typed year min_pitches
  /\ (forall r,
        r ∈ get_out_percentage_by_pitch_type data player_name year min_pitches ->
        (exists p, p ∈ player_rows data player_name year
                   /\ Pitch.pitch_type p = Some (AggregateRow.pitch_type r))
        /\ AggregateRow.total_pitches r
           = Z.of_nat (length (filter (fun p => Pitch.pitch_type p = Some (AggregateRow.pitch_type r))
                                 (player_rows data player_name year)))
        /\ AggregateRow.out_pitch_count r
           = Z.of_nat (length (filter (fun p => Pitch.IsOutPitch p = true)
                                 (filter (fun p => Pitch.pitch_type p = Some (AggregateRow.pitch_type r))
                                    (player_rows data player_name year)))))
  /\ (forall r,
        r ∈ get_league_avg_out_percentage data year min_pitches ->
        (exists p, p ∈ year_rows data year
                   /\ Pitch.pitch_type p = Some (AggregateRow.pitch_type r))
        /\ AggregateRow.total_pitches r
           = Z.of_nat (length (filter (fun p => Pitch.pitch_type p = Some (AggregateRow.pitch_type r))
                                 (year_rows data year)))
        /\ AggregateRow.out_pitch_count r
           = Z.of_nat (length (filter (fun p => Pitch.IsOutPitch p = true)
                                 (filter (fun p => Pitch.pitch_type p = Some (AggregateRow.pitch_type r))
                                    (year_rows data year))))).
Proof.
  cbv zeta.
  rewrite !get_out_percentage_by_pitch_type_frame, !get_league_avg_out_percentage_frame.
  assert (Hrow : forall selected r,
             r ∈ aggregate_frame selected min_pitches ->
             (exists p, p ∈ selected /\ Pitch.pitch_type p = Some (AggregateRow.pitch_type r))
             /\ AggregateRow.total_pitches r = pitches_of selected (AggregateRow.pitch_type r)
             /\ AggregateRow.out_pitch_count r = outs_of selected (AggregateRow.pitch_type r)).
  { intros selected r (k & Hk & _ & ->)%elem_of_aggregate_frame. simpl.
    split; [by apply elem_of_group_keys | done]. }
  split; [|split; [|split]].
  - unfold aggregate_frame, player_rows.
    by rewrite (filter_comm _ (fun p => Pitch.pitch_type p <> None)),
      agg_sum_count_drop_missing.
  - unfold aggregate_frame, year_rows.
    by rewrite (filter_comm _ (fun p => Pitch.pitch_type p <> None)),
      agg_sum_count_drop_missing.
  - intros r Hr. apply (Hrow _ _ Hr).
  - intros r Hr. apply (Hrow _ _ Hr).
Qed.

(** In the sample, the pitcher's six rows give groups of 3, 1 and 1 pitches:
    the row without a code is in none of them. *)
Lemma missing_pitch_type_is_not_grouped_sample :
  length (player_rows sample_data "Cole, Gerrit" 2023) = 6%nat
  /\ get_out_percentage_by_pitch_type sample_data "Cole, Gerrit" 2023 1
     = get_out_percentage_by_pitch_type
         (filter (fun p => Pitch.pitch_type p <> None) sample_data) "Cole, Gerrit" 2023 1
  /\ AggregateRow.total_pitches <$> get_out_percentage_by_pitch_type sample_data "Cole, Gerrit" 2023 1
     = [3; 1; 1].
Proof.
  split; [reflexivity|]. split; [|vm_compute; reflexivity].
  apply (missing_pitch_type_is_not_grouped sample_data "Cole, Gerrit" 2023 1).
Defined.

(* ===================================================================== *)
(** * Further properties of the two aggregations *)
(* ===================================================================== *)

Lemma group_key_iff_pitches (selected : list Pitch.t) (k : string) :
  k ∈ Pd.group_keys selected <-> 1 <= pitches_of selected k.
Proof.
  split; [apply pitches_of_key_pos|].
  intros Hpos. apply elem_of_group_keys. unfold pitches_of in Hpos.
  destruct (filter (fun p => Pitch.pitch_type p = Some k) selected) as [|p l] eqn:Hf;
    [simpl in Hpos; lia|].
  assert (Hin : p ∈ filter (fun p => Pitch.pitch_type p = Some k) selected)
    by (rewrite Hf; apply list_elem_of_here).
  apply (list_elem_of_filter (fun p => Pitch.pitch_type p = Some k)) in Hin as [Hk Hin].
  by exists p.
Qed.

Lemma aggregate_frame_has_row (selected : list Pitch.t) (min_pitches : Z) (k : string) :
  (exists r, r ∈ aggregate_frame selected min_pitches /\ AggregateRow.pitch_type r = k)
  <-> 1 <= pitches_of selected k /\ min_pitches <= pitches_of selected k.
Proof.
  split.
  - intros (r & (k' & Hk & Hmin & ->)%elem_of_aggregate_frame & <-). simpl.
    split; [by apply group_key_iff_pitches | done].
  - intros [Hpos Hmin]. exists (group_row selected k). split; [|done].
    apply elem_of_aggregate_frame. exists k.
    split; [by apply group_key_iff_pitches | done].
Qed.

Lemma aggregate_frame_raise_threshold (selected : list Pitch.t) (m m' : Z) :
  m <= m' ->
  aggregate_frame selected m'
  = filter (fun r => AggregateRow.total_pitches r >= m') (aggregate_frame selected m).
Proof.
  intros Hm. rewrite !aggregate_frame_rows.
  induction (Pd.group_keys selected) as [|k ks IH]; [done|].
  rewrite !filter_cons.
  destruct (decide (pitches_of selected k >= m')) as [Hk'|Hk'].
  - rewrite decide_True by lia. rewrite !fmap_cons, filter_cons.
    rewrite decide_True by (simpl; lia). by rewrite IH.
  - destruct (decide (pitches_of selected k >= m)); [|done].
    rewrite fmap_cons, filter_cons. by rewrite decide_False by (simpl; lia).
Qed.

Lemma kept_keys_NoDup (selected : list Pitch.t) (min_pitches : Z) :
  NoDup (filter (fun k => pitches_of selected k >= min_pitches) (Pd.group_keys selected)).
Proof. apply NoDup_filter, sorted_keys_NoDup, group_keys_sorted. Qed.

Lemma filter_group_rows (selected : list Pitch.t) (ks : list string) (k : string) :
  NoDup ks ->
  filter (fun r => AggregateRow.pitch_type r = k) (group_row selected <$> ks)
  = if decide (k ∈ ks) then [group_row selected k] else [].
Proof.
  induction 1 as [|k' ks Hk' Hnd IH]; [done|].
  rewrite fmap_cons, filter_cons. cbn [group_row AggregateRow.pitch_type].
  destruct (decide (k' = k)) as [->|Hne].
  - rewrite decide_True by apply list_elem_of_here.
    rewrite IH, decide_False by done. done.
  - rewrite IH. destruct (decide (k ∈ ks)) as [Hin|Hin].
    + rewrite decide_True by (by apply list_elem_of_further). done.
    + rewrite decide_False; [done|].
      intros [->|?]%elem_of_cons; [by apply Hne | by apply Hin].
Qed.

Lemma filter_aggregate_frame (selected : list Pitch.t) (min_pitches : Z) (k : string) :
  k ∈ AggregateRow.pitch_type <$> aggregate_frame selected min_pitches ->
  filter (fun r => AggregateRow.pitch_type r = k) (aggregate_frame selected min_pitches)
  = [group_row selected k].
Proof.
  rewrite aggregate_frame_pitch_types. intros Hk.
  rewrite aggregate_frame_rows, filter_group_rows by apply kept_keys_NoDup.
  by rewrite decide_True.
Qed.

(** X1.  Each operation returns its rows in strictly ascending order of
    [pitch_type] (the order of [str] comparison), so no two rows of an
    output have the same pitch type. *)
Theorem output_rows_ascend_by_pitch_type
    (data : list Pitch.t) (player_name : string) (year min_pitches : Z) :
  StronglySorted (fun a b => String.compare a b = Lt)
    (AggregateRow.pitch_type <$>
       get_out_percentage_by_pitch_type data player_name year min_pitches)
  /\ StronglySorted (fun a b => String.compare a b = Lt)
       (AggregateRow.pitch_type <$> get_league_avg_out_percentage data year min_pitches)
  /\ NoDup (AggregateRow.pitch_type <$>
              get_out_percentage_by_pitch_type data player_name year min_pitches)
  /\ NoDup (AggregateRow.pitch_type <$> get_league_avg_out_percentage data year min_pitches).
Proof.
  rewrite get_out_percentage_by_pitch_type_frame, get_league_avg_out_percentage_frame.
  repeat split; first [apply aggregate_frame_sorted | apply aggregate_frame_NoDup].
Qed.

(** X2.  A pitch type has a row in an output exactly when at least one
    selected pitch carries it and the number of selected pitches that carry
    it reaches [min_pitches]. *)
Theorem pitch_type_has_row_iff
    (data : list Pitch.t) (player_name : string) (year min_pitches : Z) (k : string) :
  ((exists r, r ∈ get_out_percentage_by_pitch_type data player_name year min_pitches
              /\ AggregateRow.pitch_type r = k)
   <-> 1 <= pitches_of (player_rows data player_name year) k
       /\ min_pitches <= pitches_of (player_rows data player_name year) k)
  /\ ((exists r, r ∈ get_league_avg_out_percentage data year min_pitches
                 /\ AggregateRow.pitch_type r = k)
      <-> 1 <= pitches_of (year_rows data year) k
          /\ min_pitches <= pitches_of (year_rows data year) k).
Proof.
  rewrite get_out_percentage_by_pitch_type_frame, get_league_avg_out_percentage_frame.
  split; apply aggregate_frame_has_row.
Qed.

(** X3.  Raising the threshold only removes rows: the output for a larger
    [min_pitches] is the output for a smaller one, filtered by the larger
    threshold, with the remaining rows unchanged and in the same order. *)
Theorem raising_min_pitches_filters_the_output
    (data : list Pitch.t) (player_name : string) (year m m' : Z) :
  m <= m' ->
  get_out_percentage_by_pitch_type data player_name year m'
  = filter (fun r => AggregateRow.total_pitches r >= m')
      (get_out_percentage_by_pitch_type data player_name year m)
  /\ get_league_avg_out_percentage data year m'
     = filter (fun r => AggregateRow.total_pitches r >= m')
         (get_league_avg_out_percentage data year m).
Proof.
  intros Hm.
  rewrite !get_out_percentage_by_pitch_type_frame, !get_league_avg_out_percentage_frame.
  split; by apply aggregate_frame_raise_threshold.
Qed.

Lemma raising_min_pitches_filters_the_output_sample :
  get_out_percentage_by_pitch_type sample_data "Cole, Gerrit" 2023 2
  = filter (fun r => AggregateRow.total_pitches r >= 2)
      (get_out_percentage_by_pitch_type sample_data "Cole, Gerrit" 2023 1)
  /\ get_league_avg_out_percentage sample_data 2023 2
     = filter (fun r => AggregateRow.total_pitches r >= 2)
         (get_league_avg_out_percentage sample_data 2023 1).
Proof. apply raising_min_pitches_filters_the_output. lia. Defined.

Lemma player_rows_of_year_rows (data : list Pitch.t) (player_name : string) (year : Z) :
  player_rows data player_name year
  = filter (fun p => Pitch.player_name p = Some player_name) (year_rows data year).
Proof.
  unfold player_rows, year_rows.
  induction data as [|p data IH]; [done|].
  rewrite !filter_cons.
  destruct (decide (Pitch.game_year p = year)) as [Hy|Hy].
  - rewrite filter_cons.
    destruct (decide (Pitch.player_name p = Some player_name)) as [Hn|Hn].
    + rewrite decide_True by done. by rewrite IH.
    + rewrite decide_False by tauto. done.
  - rewrite decide_False by tauto. done.
Qed.

Lemma pitches_of_filter_le (P : Pitch.t -> Prop) `{!forall p, Decision (P p)}
    (rows : list Pitch.t) (k : string) :
  pitches_of (filter P rows) k <= pitches_of rows k
  /\ outs_of (filter P rows) k <= outs_of rows k.
Proof.
  unfold pitches_of, outs_of.
  rewrite !(filter_comm _ P).
  split; apply Nat2Z.inj_le, length_filter.
Qed.

(** The league frame has the row of every code of the player's frame, and
    [league_pct_of] finds it. *)
Lemma league_rows_of_player_rows
    (data : list Pitch.t) (player_name : string) (year min_pitches : Z)
    (r : AggregateRow.t) :
  r ∈ get_out_percentage_by_pitch_type data player_name year min_pitches ->
  exists league_row,
    league_row ∈ get_league_avg_out_percentage data year min_pitches
    /\ AggregateRow.pitch_type league_row = AggregateRow.pitch_type r
    /\ league_pct_of (get_league_avg_out_percentage data year min_pitches)
         (AggregateRow.pitch_type r)
       = AggregateRow.out_percentage league_row.
Proof.
  rewrite get_out_percentage_by_pitch_type_frame, get_league_avg_out_percentage_frame.
  intros (k & Hk & Hmin & ->)%elem_of_aggregate_frame.
  apply group_key_iff_pitches in Hk.
  rewrite player_rows_of_year_rows in Hk, Hmin.
  destruct (pitches_of_filter_le (fun p => Pitch.player_name p = Some player_name)
              (year_rows data year) k) as [Hp _].
  assert (Hrow : group_row (year_rows data year) k
                 ∈ aggregate_frame (year_rows data year) min_pitches).
  { apply elem_of_aggregate_frame. exists k.
    split; [apply group_key_iff_pitches; lia|]. split; [lia | done]. }
  exists (group_row (year_rows data year) k). simpl.
  split; [done|]. split; [done|].
  unfold league_pct_of. rewrite filter_aggregate_frame; [done|].
  by apply (list_elem_of_fmap_2 AggregateRow.pitch_type) in Hrow.
Qed.

(** X4.  Whatever pitch type the player's table shows, the league table
    computed from the same data, season and threshold shows too, under the
    same name and with at least as many pitches and outs. *)
Theorem league_has_every_pitch_type_of_the_player
    (data : list Pitch.t) (player_name : string) (year min_pitches : Z)
    (r : AggregateRow.t) :
  r ∈ get_out_percentage_by_pitch_type data player_name year min_pitches ->
  exists league_row,
    league_row ∈ get_league_avg_out_percentage data year min_pitches
    /\ AggregateRow.pitch_type league_row = AggregateRow.pitch_type r
    /\ AggregateRow.pitch_name league_row = AggregateRow.pitch_name r
    /\ AggregateRow.total_pitches r <= AggregateRow.total_pitches league_row
    /\ AggregateRow.out_pitch_count r <= AggregateRow.out_pitch_count league_row.
Proof.
  rewrite get_out_percentage_by_pitch_type_frame, get_league_avg_out_percentage_frame.
  intros (k & Hk & Hmin & ->)%elem_of_aggregate_frame.
  apply group_key_iff_pitches in Hk.
  rewrite player_rows_of_year_rows in Hk, Hmin |- *.
  destruct (pitches_of_filter_le (fun p => Pitch.player_name p = Some player_name)
              (year_rows data year) k) as [Hp Ho].
  exists (group_row (year_rows data year) k). simpl.
  split; [|done].
  apply elem_of_aggregate_frame. exists k.
  split; [apply group_key_iff_pitches; lia|]. split; [lia | done].
Qed.

Lemma league_has_every_pitch_type_of_the_player_sample :
  exists league_row,
    league_row ∈ get_league_avg_out_percentage sample_data 2023 2
    /\ AggregateRow.pitch_type league_row = "FF"
    /\ AggregateRow.pitch_name league_row = "Four-Seam Fastball"
    /\ 3 <= AggregateRow.total_pitches league_row
    /\ 2 <= AggregateRow.out_pitch_count league_row.
Proof.
  apply (league_has_every_pitch_type_of_the_player sample_data "Cole, Gerrit" 2023 2
           sample_FF_row).
  rewrite sample_by_player. apply list_elem_of_here.
Defined.

(* ===================================================================== *)
(** * Counting rows *)
(* ===================================================================== *)

Lemma length_filter_fmap_iff {A B : Type} (f : A -> B) (P : B -> Prop) (Q : A -> Prop)
    `{!forall y, Decision (P y)} `{!forall x, Decision (Q x)} (l : list A) :
  (forall x, P (f x) <-> Q x) ->
  length (filter P (f <$> l)) = length (filter Q l).
Proof.
  intros HPQ. induction l as [|x l IH]; [done|].
  rewrite fmap_cons, !filter_cons.
  destruct (decide (Q x)) as [HQ|HQ].
  - rewrite decide_True by (by apply HPQ). simpl. by rewrite IH.
  - rewrite decide_False by (by rewrite HPQ). done.
Qed.

Lemma filter_iff_on {A : Type} (P Q : A -> Prop)
    `{!forall x, Decision (P x)} `{!forall x, Decision (Q x)} (l : list A) :
  (forall x, x ∈ l -> P x <-> Q x) -> filter P l = filter Q l.
Proof.
  induction l as [|x l IH]; intros HPQ; [done|].
  rewrite !filter_cons.
  assert (Hx : P x <-> Q x) by apply HPQ, list_elem_of_here.
  assert (Hl : filter P l = filter Q l)
    by (apply IH; intros y Hy; by apply HPQ, list_elem_of_further).
  destruct (decide (P x)) as [HP|HP].
  - rewrite decide_True by tauto. by rewrite Hl.
  - rewrite decide_False by tauto. done.
Qed.

Lemma length_filter_impl {A : Type} (P Q : A -> Prop)
    `{!forall x, Decision (P x)} `{!forall x, Decision (Q x)} (l : list A) :
  (forall x, P x -> Q x) -> (length (filter P l) <= length (filter Q l))%nat.
Proof.
  intros HPQ. rewrite <- (list_filter_filter_l P Q l HPQ). apply length_filter.
Qed.

Lemma outs_of_as_pitches_of (selected : list Pitch.t) (k : string) :
  outs_of selected k = pitches_of (filter (fun p => Pitch.IsOutPitch p = true) selected) k.
Proof. unfold outs_of, pitches_of. by rewrite filter_comm. Qed.

(** The pitches of the codes of [ks], summed code by code, are the rows
    whose code is in [ks]. *)
Lemma sum_pitches_of (selected : list Pitch.t) (ks : list string) :
  NoDup ks ->
  PdSeries.sum (pitches_of selected <$> ks)
  = Z.of_nat (length (filter (fun p => Pitch.pitch_type p ∈ Some <$> ks) selected)).
Proof.
  induction 1 as [|k ks Hk Hnd IH].
  - simpl. rewrite (filter_none _ selected); [done|].
    intros p _ Hp. by apply elem_of_nil in Hp.
  - rewrite fmap_cons. cbn [PdSeries.sum foldr].
    fold (PdSeries.sum (pitches_of selected <$> ks)).
    rewrite IH. unfold pitches_of. clear IH.
    induction selected as [|p selected IHs]; [done|].
    rewrite !filter_cons.
    destruct (decide (Pitch.pitch_type p = Some k)) as [Hpk|Hpk];
      destruct (decide (Pitch.pitch_type p ∈ Some <$> ks)) as [Hin|Hin];
      destruct (decide (Pitch.pitch_type p ∈ Some <$> k :: ks)) as [Hin'|Hin'];
      cbn [length]; try lia; exfalso.
    + rewrite Hpk in Hin. by apply list_elem_of_fmap in Hin as (k' & [= <-] & Hin).
    + rewrite Hpk in Hin. by apply list_elem_of_fmap in Hin as (k' & [= <-] & Hin).
    + apply Hin'. rewrite Hpk, fmap_cons. apply list_elem_of_here.
    + apply Hin'. rewrite fmap_cons. by apply list_elem_of_further.
    + rewrite fmap_cons in Hin'.
      apply elem_of_cons in Hin' as [Heq|Hin']; [by apply Hpk | by apply Hin].
Qed.

Lemma sum_le_pointwise {A : Type} (f g : A -> Z) (l : list A) :
  (forall x, x ∈ l -> f x <= g x) -> PdSeries.sum (f <$> l) <= PdSeries.sum (g <$> l).
Proof.
  induction l as [|x l IH]; intros Hfg; [done|].
  rewrite !fmap_cons. cbn [PdSeries.sum foldr].
  assert (f x <= g x) by apply Hfg, list_elem_of_here.
  assert (PdSeries.sum (f <$> l) <= PdSeries.sum (g <$> l))
    by (apply IH; intros y Hy; by apply Hfg, list_elem_of_further).
  unfold PdSeries.sum in *. lia.
Qed.

Lemma sum_ge_length {A : Type} (f : A -> Z) (l : list A) :
  (forall x, x ∈ l -> 1 <= f x) -> Z.of_nat (length l) <= PdSeries.sum (f <$> l).
Proof.
  induction l as [|x l IH]; intros Hf; [done|].
  rewrite fmap_cons. cbn [PdSeries.sum foldr length].
  assert (1 <= f x) by apply Hf, list_elem_of_here.
  assert (Z.of_nat (length l) <= PdSeries.sum (f <$> l))
    by (apply IH; intros y Hy; by apply Hf, list_elem_of_further).
  unfold PdSeries.sum in *. lia.
Qed.

Lemma summary_totals (selected : list Pitch.t) (min_pitches : Z) :
  let kept := filter (fun k => pitches_of selected k >= min_pitches) (Pd.group_keys selected) in
  PdSeries.sum (AggregateRow.total_pitches <$> aggregate_frame selected min_pitches)
  = PdSeries.sum (pitches_of selected <$> kept)
  /\ PdSeries.sum (AggregateRow.out_pitch_count <$> aggregate_frame selected min_pitches)
     = PdSeries.sum (outs_of selected <$> kept).
Proof.
  cbv zeta. rewrite aggregate_frame_rows, <- !list_fmap_compose. done.
Qed.

(** X5.  On classified events, the two counts of a row count events: the
    pitches are the events of that player, season and pitch type, and the
    outs are those of them whose outcome is one of [out_events]. *)
Theorem counts_of_classified_events
    (events : list Event.t) (player_name : string) (year min_pitches : Z)
    (r : AggregateRow.t) :
  (r ∈ get_out_percentage_by_pitch_type (calculate_out_percentage events)
         player_name year min_pitches ->
   AggregateRow.total_pitches r
   = Z.of_nat (length (filter (fun e => Event.pitch_type e = Some (AggregateRow.pitch_type r)
                                        /\ Event.player_name e = Some player_name
                                        /\ Event.game_year e = year) events))
   /\ AggregateRow.out_pitch_count r
      = Z.of_nat (length (filter (fun e => Event.events e ∈ Some <$> out_events
                                           /\ Event.pitch_type e = Some (AggregateRow.pitch_type r)
                                           /\ Event.player_name e = Some player_name
                                           /\ Event.game_year e = year) events)))
  /\ (r ∈ get_league_avg_out_percentage (calculate_out_percentage events) year min_pitches ->
      AggregateRow.total_pitches r
      = Z.of_nat (length (filter (fun e => Event.pitch_type e = Some (AggregateRow.pitch_type r)
                                           /\ Event.game_year e = year) events))
      /\ AggregateRow.out_pitch_count r
         = Z.of_nat (length (filter (fun e => Event.events e ∈ Some <$> out_events
                                              /\ Event.pitch_type e = Some (AggregateRow.pitch_type r)
                                              /\ Event.game_year e = year) events))).
Proof.
  assert (Hflag : forall e, is_out_pitch e = true <-> Event.events e ∈ Some <$> out_events).
  { intros e. unfold is_out_pitch, Pd.isin. destruct (Event.events e) as [s|].
    - rewrite bool_decide_eq_true, list_elem_of_fmap. split.
      + intros Hs. by exists s.
      + by intros (s' & [= <-] & Hs).
    - split; [done|]. by intros (s' & [=] & _)%list_elem_of_fmap. }
  rewrite get_out_percentage_by_pitch_type_frame, get_league_avg_out_percentage_frame.
  unfold player_rows, year_rows, calculate_out_percentage.
  split; intros (k & _ & _ & ->)%elem_of_aggregate_frame; simpl;
    unfold outs_of, pitches_of; rewrite !list_filter_filter; split; f_equal;
    apply length_filter_fmap_iff; intros e; simpl;
    unfold Pitch.pitch_type, Pitch.player_name, Pitch.game_year; simpl;
    rewrite ?Hflag; tauto.
Qed.

Lemma counts_of_classified_events_sample :
  AggregateRow.total_pitches sample_FF_row
  = Z.of_nat (length (filter (fun e => Event.pitch_type e = Some "FF"
                                       /\ Event.player_name e = Some "Cole, Gerrit"
                                       /\ Event.game_year e = 2023) sample_events))
  /\ AggregateRow.out_pitch_count sample_FF_row
     = Z.of_nat (length (filter (fun e => Event.events e ∈ Some <$> out_events
                                          /\ Event.pitch_type e = Some "FF"
                                          /\ Event.player_name e = Some "Cole, Gerrit"
                                          /\ Event.game_year e = 2023) sample_events)).
Proof.
  destruct (counts_of_classified_events sample_events "Cole, Gerrit" 2023 2 sample_FF_row)
    as [Hplayer _].
  apply Hplayer.
  pose proof sample_by_player as Hrows. unfold sample_data in Hrows.
  rewrite Hrows. apply list_elem_of_here.
Defined.

(* ===================================================================== *)
(** * The summary table and the comparison chart *)
(* ===================================================================== *)

Lemma kept_keys_typed (selected : list Pitch.t) (min_pitches : Z) (p : Pitch.t) :
  p ∈ selected ->
  min_pitches <= 1 ->
  Pitch.pitch_type p ∈
    Some <$> filter (fun k => pitches_of selected k >= min_pitches) (Pd.group_keys selected)
  <-> Pitch.pitch_type p <> None.
Proof.
  intros Hp Hmin. split.
  - by intros (k & -> & _)%list_elem_of_fmap.
  - destruct (Pitch.pitch_type p) as [k|] eqn:Hk; [intros _ | done].
    apply list_elem_of_fmap_2.
    apply (list_elem_of_filter (fun k => pitches_of selected k >= min_pitches)).
    assert (Hkey : k ∈ Pd.group_keys selected) by (apply elem_of_group_keys; by exists p).
    split; [|done]. apply pitches_of_key_pos in Hkey. lia.
Qed.

(** X6.  The totals of the summary table, computed from the player's table:
    when the table has a row the total of pitches is at least 1, so the
    overall percentage divides by a positive number; the outs lie between 0
    and the pitches; the pitches are at most the player's pitches of that
    season that carry a pitch type, and with a threshold of at most 1 both
    totals are exactly those pitches and the outs among them. *)
Theorem summary_statistics_totals
    (data : list Pitch.t) (player_name : string) (year min_pitches : Z) :
  let pitch_results := get_out_percentage_by_pitch_type data player_name year min_pitches in
  let typed := filter (fun p => Pitch.pitch_type p <> None) (player_rows data player_name year) in
  let total_pitches := (summary_statistics pitch_results).1.1 in
  let total_outs := (summary_statistics pitch_results).1.2 in
  (pitch_results <> [] -> 1 <= total_pitches)
  /\ 0 <= total_outs <= total_pitches
  /\ total_pitches <= Z.of_nat (length typed)
  /\ (min_pitches <= 1 ->
      total_pitches = Z.of_nat (length typed)
      /\ total_outs = Z.of_nat (length (filter (fun p => Pitch.IsOutPitch p = true) typed))).
Proof.
  cbv zeta. rewrite get_out_percentage_by_pitch_type_frame.
  set (selected := player_rows data player_name year).
  unfold summary_statistics. cbn [fst snd].
  destruct (summary_totals selected min_pitches) as [Htot Hout]. cbv zeta in Htot, Hout.
  rewrite Htot, Hout. clear Htot Hout.
  set (kept := filter (fun k => pitches_of selected k >= min_pitches) (Pd.group_keys selected)).
  assert (Hnd : NoDup kept) by apply kept_keys_NoDup.
  assert (Hkept : forall k, k ∈ kept -> 1 <= pitches_of selected k).
  { intros k [_ Hk]%list_elem_of_filter. by apply pitches_of_key_pos. }
  split; [|split; [|split]].
  - intros Hne. rewrite aggregate_frame_rows in Hne. fold kept in Hne.
    pose proof (sum_ge_length (pitches_of selected) kept Hkept) as Hlen.
    assert (length kept <> 0%nat)
      by (intros Hz; apply nil_length_inv in Hz; by rewrite Hz in Hne).
    lia.
  - split.
    + transitivity (PdSeries.sum ((fun _ => 0) <$> kept)).
      * clear. induction kept; [done | by rewrite fmap_cons].
      * apply sum_le_pointwise. intros k _. apply outs_of_bounds.
    + apply sum_le_pointwise. intros k _. apply outs_of_bounds.
  - rewrite (sum_pitches_of _ _ Hnd). apply Nat2Z.inj_le, length_filter_impl.
    by intros p (k & -> & _)%list_elem_of_fmap.
  - intros Hmin.
    assert (Htyped : filter (fun p => Pitch.pitch_type p ∈ Some <$> kept) selected
                     = filter (fun p => Pitch.pitch_type p <> None) selected).
    { apply filter_iff_on. intros p Hp. by apply kept_keys_typed. }
    split.
    + by rewrite (sum_pitches_of _ _ Hnd), Htyped.
    + rewrite (list_fmap_ext (outs_of selected)
                 (pitches_of (filter (fun p => Pitch.IsOutPitch p = true) selected)) kept)
        by (intros _ k _; apply outs_of_as_pitches_of).
      rewrite (sum_pitches_of _ _ Hnd).
      rewrite (filter_comm (fun p => Pitch.pitch_type p ∈ Some <$> kept)
                 (fun p => Pitch.IsOutPitch p = true)).
      by rewrite Htyped.
Qed.

(** X7.  The loop that builds the comparison chart never fails and never
    takes the fallback 0: over the pitch types of the player's table, in any
    order, it appends for each type the player's entry and then the league's
    entry, both under the player row's pitch name, the league's entry
    carrying the percentage of the league row of that type. *)
Theorem comparison_data_pairs_player_and_league
    (data : list Pitch.t) (player_name : string) (year min_pitches : Z)
    (selected_formatted_player : string) (sorted_pitch_types : list string) :
  let pitch_results := get_out_percentage_by_pitch_type data player_name year min_pitches in
  let league_avg := get_league_avg_out_percentage data year min_pitches in
  sorted_pitch_types ≡ₚ AggregateRow.pitch_type <$> pitch_results ->
  exists entries,
    comparison_data pitch_results league_avg selected_formatted_player sorted_pitch_types
    = Ok entries
    /\ length entries = (2 * length pitch_results)%nat
    /\ forall i k,
         sorted_pitch_types !! i = Some k ->
         exists player_row league_row,
           player_row ∈ pitch_results /\ AggregateRow.pitch_type player_row = k
           /\ league_row ∈ league_avg /\ AggregateRow.pitch_type league_row = k
           /\ entries !! (2 * i)%nat
              = Some (Comparison.mk (AggregateRow.pitch_name player_row)
                        (AggregateRow.out_percentage player_row) selected_formatted_player)
           /\ entries !! (2 * i + 1)%nat
              = Some (Comparison.mk (AggregateRow.pitch_name player_row)
                        (AggregateRow.out_percentage league_row) "League Average").
Proof.
  cbv zeta. intros Hperm.
  assert (Hlen : length sorted_pitch_types
                 = length (get_out_percentage_by_pitch_type data player_name year min_pitches))
    by (by rewrite Hperm, length_fmap).
  rewrite <- Hlen. clear Hlen.
  assert (Hall : forall k, k ∈ sorted_pitch_types ->
                   k ∈ AggregateRow.pitch_type <$>
                         get_out_percentage_by_pitch_type data player_name year min_pitches)
    by (intros k Hk; by rewrite <- Hperm).
  clear Hperm.
  induction sorted_pitch_types as [|k ks IH].
  - exists []. split; [done|]. split; [done|].
    intros i k Hi. by rewrite lookup_nil in Hi.
  - destruct IH as (entries & Hrun & Hlen & Hentries).
    { intros k' Hk'. by apply Hall, list_elem_of_further. }
    assert (Hk : k ∈ AggregateRow.pitch_type <$>
                       get_out_percentage_by_pitch_type data player_name year min_pitches)
      by apply Hall, list_elem_of_here.
    assert (Hplayer : exists player_row,
               player_row ∈ get_out_percentage_by_pitch_type data player_name year min_pitches
               /\ AggregateRow.pitch_type player_row = k
               /\ first_row_of (get_out_percentage_by_pitch_type data player_name year min_pitches) k
                  = Ok player_row).
    { rewrite get_out_percentage_by_pitch_type_frame in Hk |- *.
      exists (group_row (player_rows data player_name year) k).
      unfold first_row_of. rewrite (filter_aggregate_frame _ _ _ Hk).
      split; [|done].
      apply list_elem_of_fmap in Hk as (r & -> & Hr).
      by apply elem_of_aggregate_frame in Hr as Hr'; destruct Hr' as (k' & _ & _ & ->). }
    destruct Hplayer as (player_row & Hin & Hcode & Hfirst).
    destruct (league_rows_of_player_rows data player_name year min_pitches player_row Hin)
      as (league_row & Hlin & Hlcode & Hlpct).
    rewrite Hcode in Hlpct, Hlcode.
    eexists. cbn [comparison_data]. rewrite Hfirst, Hrun, Hlpct. cbn [mbind result_bind].
    split; [reflexivity|]. split; [simpl; lia|].
    intros [|i] k' Hi.
    + injection Hi as Hi. subst k'. exists player_row, league_row.
      repeat split; done.
    + destruct (Hentries i k' Hi) as (pr & lr & ? & ? & ? & ? & He1 & He2).
      exists pr, lr. repeat split; try done.
      * replace (2 * S i)%nat with (S (S (2 * i))) by lia. exact He1.
      * replace (2 * S i + 1)%nat with (S (S (2 * i + 1))) by lia. exact He2.
Qed.

(* ===================================================================== *)
(** * Python dictionaries, [sorted] and [unique] *)
(* ===================================================================== *)

Lemma format_player_name_display (name : string) :
  format_player_name name = Ok (display_name name).
Proof.
  assert (Hok : exists s, format_player_name name = Ok s).
  { unfold format_player_name. destruct (Py.contains "," name) eqn:Hc; [|by eexists].
    apply contains_first in Hc as (before & after & -> & Hb).
    rewrite (split_at_first _ _ _ Hb). by eexists. }
  destruct Hok as [s Hs]. unfold display_name. by rewrite Hs.
Qed.

Section Dicts.
Import PyBuiltins.

Lemma dict_comprehension_ok (key value : string -> result string) (kf vf : string -> string)
    (items : list string) (d : dict) :
  (forall x, key x = Ok (kf x)) ->
  (forall x, value x = Ok (vf x)) ->
  dict_comprehension key value items d
  = Ok (foldl (fun d x => dict_set (kf x) (vf x) d) d items).
Proof.
  intros Hk Hv. revert d.
  induction items as [|x items IH]; intros d; [done|].
  cbn [dict_comprehension foldl]. rewrite Hk, Hv. cbn [mbind result_bind]. apply IH.
Qed.

Lemma dict_getitem_set (k v : string) (d : dict) (k' : string) :
  dict_getitem (dict_set k v d) k'
  = if decide (k' = k) then Ok v else dict_getitem d k'.
Proof.
  induction d as [|[k0 v0] d IH]; [done|].
  cbn [dict_set]. destruct (decide (k = k0)) as [->|Hne]; cbn [dict_getitem].
  - by destruct (decide (k' = k0)).
  - rewrite IH. destruct (decide (k' = k0)) as [->|]; [|done].
    by rewrite decide_False by done.
Qed.

Lemma dict_set_fresh (k v : string) (d : dict) :
  k ∉ dict_keys d -> dict_set k v d = (d ++ [(k, v)])%list.
Proof.
  unfold dict_keys. induction d as [|[k0 v0] d IH]; [done|].
  rewrite fmap_cons. intros [Hne Hk]%not_elem_of_cons. cbn [dict_set].
  rewrite decide_False by done. by rewrite IH.
Qed.

Lemma foldl_dict_set_fresh (vf : string -> string) (items : list string) (d : dict) :
  NoDup items ->
  (forall x, x ∈ items -> x ∉ dict_keys d) ->
  foldl (fun d x => dict_set x (vf x) d) d items
  = (d ++ ((fun x => (x, vf x)) <$> items))%list.
Proof.
  intros Hnd. revert d.
  induction Hnd as [|x items Hx Hnd IH]; intros d Hfresh.
  - by rewrite app_nil_r.
  - cbn [foldl]. rewrite dict_set_fresh by apply Hfresh, list_elem_of_here.
    rewrite IH.
    + by rewrite fmap_cons, <- app_assoc.
    + intros y Hy. unfold dict_keys. rewrite fmap_app. simpl.
      intros [Hin|Hin]%elem_of_app.
      * by apply (Hfresh y); [apply list_elem_of_further|].
      * apply list_elem_of_singleton in Hin as ->. done.
Qed.

(** The value under a key is the one assigned last. *)
Lemma dict_getitem_foldl (kf vf : string -> string) (items : list string) (d : dict)
    (k : string) :
  dict_getitem (foldl (fun d x => dict_set (kf x) (vf x) d) d items) k
  = match last (filter (fun x => kf x = k) items) with
    | Some x => Ok (vf x)
    | None => dict_getitem d k
    end.
Proof.
  revert d. induction items as [|x items IH]; intros d; [done|].
  cbn [foldl]. rewrite IH, filter_cons, dict_getitem_set.
  destruct (decide (kf x = k)) as [Hx|Hx].
  - rewrite last_cons. destruct (last (filter (fun x => kf x = k) items)); [done|].
    by rewrite decide_True.
  - destruct (last (filter (fun x => kf x = k) items)); [done|].
    by rewrite decide_False by done.
Qed.

Lemma insort_Permutation (k : string) (ks : list string) : insort k ks ≡ₚ k :: ks.
Proof.
  induction ks as [|k' ks IH]; [done|].
  cbn [insort]. destruct (String.compare k k'); try done.
  rewrite IH. apply Permutation_swap.
Qed.

Lemma sorted_Permutation (l : list string) : sorted l ≡ₚ l.
Proof.
  unfold sorted. induction l as [|x l IH]; [done|].
  cbn [foldr]. by rewrite insort_Permutation, IH.
Qed.




Lemma insort_sorted_strict (k : string) (ks : list string) :
  StronglySorted key_lt ks -> k ∉ ks -> StronglySorted key_lt (insort k ks).
Proof.
  induction 1 as [|k' ks Hs IH Hall]; cbn [insort].
  - repeat constructor.
  - intros [Hne Hk]%not_elem_of_cons.
    destruct (String.compare k k') eqn:Hc.
    + by apply string_compare_eq in Hc.
    + constructor; [by constructor|]. constructor; [done|].
      eapply Forall_impl; [exact Hall|]. intros x Hx.
      by apply (string_compare_lt_trans _ k').
    + constructor; [by apply IH|]. rewrite insort_Permutation. constructor; [|done].
      by apply string_compare_gt_lt.
Qed.

Lemma sorted_strict (l : list string) : NoDup l -> StronglySorted key_lt (sorted l).
Proof.
  unfold sorted. induction 1 as [|x l Hx Hnd IH]; [constructor|].
  cbn [foldr]. apply insort_sorted_strict; [done|].
  fold (sorted l). by rewrite sorted_Permutation.
Qed.

End Dicts.

Lemma elem_of_unique (x : string) (l : list string) : x ∈ PdSeries.unique l <-> x ∈ l.
Proof.
  induction l as [|a l IH]; [done|].
  cbn [PdSeries.unique].
  rewrite !elem_of_cons, (list_elem_of_filter (fun y => y <> a)), IH.
  destruct (decide (x = a)); tauto.
Qed.

Lemma NoDup_unique (l : list string) : NoDup (PdSeries.unique l).
Proof.
  induction l as [|a l IH]; [constructor|].
  cbn [PdSeries.unique]. constructor; [|by apply NoDup_filter].
  by intros [Hne _]%(list_elem_of_filter (fun y => y <> a)).
Qed.

(** In a strictly ascending list, the last element that satisfies [P] is the
    greatest one that does. *)
Lemma last_filter_greatest (P : string -> Prop) `{!forall x, Decision (P x)}
    (l : list string) (x : string) :
  StronglySorted key_lt l ->
  last (filter P l) = Some x ->
  x ∈ l /\ P x /\ forall y, y ∈ l -> P y -> y = x \/ key_lt y x.
Proof.
  induction 1 as [|a l Hs IH Hall]; [done|].
  rewrite filter_cons. destruct (decide (P a)) as [Ha|Ha].
  - rewrite last_cons. destruct (last (filter P l)) as [z|] eqn:Hlast.
    + intros [= ->]. destruct (IH eq_refl) as (Hin & Hx & Hmax).
      split; [by apply list_elem_of_further|]. split; [done|].
      intros y [->|Hy]%elem_of_cons Hy'.
      * right. by apply (proj1 (Forall_forall _ _) Hall).
      * by apply Hmax.
    + intros [= ->]. split; [apply list_elem_of_here|]. split; [done|].
      intros y [->|Hy]%elem_of_cons Hy'; [by left|].
      apply last_None in Hlast.
      assert (Hin : y ∈ filter P l) by (by apply list_elem_of_filter).
      rewrite Hlast in Hin. by apply elem_of_nil in Hin.
  - intros Hlast. destruct (IH Hlast) as (Hin & Hx & Hmax).
    split; [by apply list_elem_of_further|]. split; [done|].
    intros y [->|Hy]%elem_of_cons Hy'; [done | by apply Hmax].
Qed.

(* ===================================================================== *)
(** * The player box *)
(* ===================================================================== *)

Lemma elem_of_player_names (data : list Pitch.t) (name : string) :
  name ∈ player_names data <-> Some name ∈ Pitch.player_name <$> data.
Proof.
  unfold player_names. rewrite sorted_Permutation, elem_of_unique, list_elem_of_omap.
  rewrite list_elem_of_fmap. split; intros (p & ? & ?); by exists p.
Qed.

Lemma player_names_sorted (data : list Pitch.t) : StronglySorted key_lt (player_names data).
Proof. apply sorted_strict, NoDup_unique. Qed.

Lemma player_names_dict_items (data : list Pitch.t) :
  player_names_dict data = Ok ((fun n => (n, display_name n)) <$> player_names data).
Proof.
  unfold player_names_dict.
  rewrite (dict_comprehension_ok Ok format_player_name id display_name)
    by (done || apply format_player_name_display).
  f_equal. apply (foldl_dict_set_fresh display_name).
  - apply sorted_keys_NoDup, player_names_sorted.
  - intros x _. apply not_elem_of_nil.
Qed.

Lemma formatted_player_names_items (data : list Pitch.t) :
  formatted_player_names data
  = Ok (PyBuiltins.sorted (display_name <$> player_names data)).
Proof.
  unfold formatted_player_names. rewrite player_names_dict_items. cbn [mbind result_bind].
  unfold PyBuiltins.dict_values. by rewrite <- list_fmap_compose.
Qed.

Lemma selected_player_last (data : list Pitch.t) (selected : string) :
  selected_player data (Some selected)
  = match last (filter (fun n => display_name n = selected) (player_names data)) with
    | Some original => Ok original
    | None => Raised "KeyError"
    end.
Proof.
  unfold selected_player, formatted_to_original.
  rewrite player_names_dict_items. cbn [mbind result_bind].
  unfold PyBuiltins.dict_keys. rewrite <- list_fmap_compose.
  rewrite (list_fmap_ext _ id (player_names data)) by done. rewrite list_fmap_id.
  rewrite (dict_comprehension_ok format_player_name Ok display_name id)
    by (done || apply format_player_name_display).
  cbn [mbind result_bind].
  by rewrite (dict_getitem_foldl display_name id).
Qed.

(** What selecting the formatted name of a player of the data returns. *)
Lemma selected_player_of_name (data : list Pitch.t) (name : string) :
  Some name ∈ Pitch.player_name <$> data ->
  exists original,
    selected_player data (Some (display_name name)) = Ok original
    /\ Some original ∈ Pitch.player_name <$> data
    /\ display_name original = display_name name
    /\ (original = name \/ key_lt name original).
Proof.
  intros Hname%elem_of_player_names. rewrite selected_player_last.
  destruct (last (filter (fun n => display_name n = display_name name) (player_names data)))
    as [original|] eqn:Hlast.
  - destruct (last_filter_greatest _ _ _ (player_names_sorted data) Hlast)
      as (Hin & Hsame & Hmax).
    exists original. split; [done|]. split; [by apply elem_of_player_names|].
    split; [done|]. destruct (Hmax name Hname eq_refl) as [->|Hlt]; [by left | by right].
  - apply last_None in Hlast.
    assert (Hin : name ∈ filter (fun n => display_name n = display_name name)
                           (player_names data))
      by (by apply (list_elem_of_filter (fun n => display_name n = display_name name))).
    rewrite Hlast in Hin. by apply elem_of_nil in Hin.
Qed.


(** X9.  Whatever option of the player box is selected, the lookup of the
    original name succeeds, and the name it returns is a player name of the
    data whose formatted form is the selected option. *)
Theorem selected_player_has_the_selected_name
    (data : list Pitch.t) (options : list string) (selected : string) :
  formatted_player_names data = Ok options ->
  selected ∈ options ->
  exists original,
    selected_player data (Some selected) = Ok original
    /\ Some original ∈ Pitch.player_name <$> data
    /\ format_player_name original = Ok selected.
Proof.
  rewrite formatted_player_names_items. intros [= <-].
  rewrite sorted_Permutation.
  intros (name & -> & Hname%elem_of_player_names)%list_elem_of_fmap.
  destruct (selected_player_of_name data name Hname) as (original & Hsel & Hin & Hsame & _).
  exists original. split; [done|]. split; [done|].
  by rewrite format_player_name_display, Hsame.
Qed.

Lemma selected_player_has_the_selected_name_sample :
  exists original,
    selected_player sample_data (Some "Gerrit Cole") = Ok original
    /\ Some original ∈ Pitch.player_name <$> sample_data
    /\ format_player_name original = Ok "Gerrit Cole".
Proof.
  apply (selected_player_has_the_selected_name sample_data ["Aaron Judge"; "Gerrit Cole"]).
  - reflexivity.
  - apply list_elem_of_further, list_elem_of_here.
Defined.

(** X10.  When several player names of the data format alike, the option
    they share selects the greatest of them in [str] order: for a player
    name of the data, its formatted form selects a name that formats alike
    and is that name or a greater one. *)
Theorem selection_returns_the_greatest_name_formatted_alike
    (data : list Pitch.t) (name : string) :
  Some name ∈ Pitch.player_name <$> data ->
  exists formatted original,
    format_player_name name = Ok formatted
    /\ selected_player data (Some formatted) = Ok original
    /\ Some original ∈ Pitch.player_name <$> data
    /\ format_player_name original = Ok formatted
    /\ (original = name \/ String.compare name original = Lt).
Proof.
  intros Hname.
  destruct (selected_player_of_name data name Hname) as (original & Hsel & Hin & Hsame & Hmax).
  exists (display_name name), original.
  split; [apply format_player_name_display|]. split; [done|]. split; [done|].
  split; [by rewrite format_player_name_display, Hsame | done].
Qed.

Lemma selection_returns_the_greatest_name_formatted_alike_sample :
  exists formatted original,
    format_player_name "Judge, Aaron" = Ok formatted
    /\ selected_player alike_data (Some formatted) = Ok original
    /\ Some original ∈ Pitch.player_name <$> alike_data
    /\ format_player_name original = Ok formatted
    /\ (original = "Judge, Aaron" \/ String.compare "Judge, Aaron" original = Lt).
Proof.
  apply (selection_returns_the_greatest_name_formatted_alike alike_data "Judge, Aaron").
  apply list_elem_of_further, list_elem_of_here.
Defined.

Example alike_data_selects_the_greater :
  formatted_player_names alike_data = Ok ["Aaron Judge"; "Aaron Judge"]
  /\ selected_player alike_data (Some "Aaron Judge") = Ok "Judge,Aaron".
Proof. split; reflexivity. Qed.

(** X11.  Round trip: when no other player name of the data formats like
    [name], selecting the formatted form of [name] returns [name]. *)
Theorem selecting_the_formatted_name_returns_the_name
    (data : list Pitch.t) (name : string) :
  Some name ∈ Pitch.player_name <$> data ->
  (forall other, Some other ∈ Pitch.player_name <$> data ->
                 format_player_name other = format_player_name name -> other = name) ->
  exists formatted,
    format_player_name name = Ok formatted
    /\ selected_player data (Some formatted) = Ok name.
Proof.
  intros Hname Hinj.
  destruct (selected_player_of_name data name Hname) as (original & Hsel & Hin & Hsame & _).
  exists (display_name name). split; [apply format_player_name_display|].
  rewrite Hsel. f_equal. apply Hinj; [done|].
  by rewrite !format_player_name_display, Hsame.
Qed.

Lemma selecting_the_formatted_name_returns_the_name_sample :
  exists formatted,
    format_player_name "Cole, Gerrit" = Ok formatted
    /\ selected_player sample_data (Some formatted) = Ok "Cole, Gerrit".
Proof.
  apply (selecting_the_formatted_name_returns_the_name sample_data "Cole, Gerrit").
  - apply list_elem_of_here.
  - intros other Hother Hfmt.
    assert (Hcases : other = "Cole, Gerrit" \/ other = "Judge, Aaron").
    { apply list_elem_of_In in Hother. simpl in Hother.
      repeat destruct Hother as [Hother|Hother];
        try (injection Hother as <-); auto; done. }
    destruct Hcases as [->| ->]; [done | discriminate Hfmt].
Defined.

Lemma comparison_data_pairs_player_and_league_sample :
  exists entries,
    comparison_data (get_out_percentage_by_pitch_type sample_data "Cole, Gerrit" 2023 1)
      (get_league_avg_out_percentage sample_data 2023 1) "Gerrit Cole" ["FF"; "XY"; "SL"]
    = Ok entries
    /\ length entries = 6%nat.
Proof.
  destruct (comparison_data_pairs_player_and_league sample_data "Cole, Gerrit" 2023 1
              "Gerrit Cole" ["FF"; "XY"; "SL"]) as (entries & Hrun & Hlen & _).
  - apply (Permutation_skip "FF"). apply Permutation_swap.
  - exists entries. split; [exact Hrun | exact Hlen].
Defined.

(* ===================================================================== *)
(** * The messages of the loader *)
(* ===================================================================== *)

Section LoaderMessages.

Variable World : Type.
Variable datetime : Type.
Variable statcast : string -> string -> World -> result (list Event.t) * World.
Variable datetime_now : World -> datetime.
Variable minus_days : datetime -> Z -> datetime.
Variable strftime_ymd : datetime -> string.


End LoaderMessages.

(* ===================================================================== *)
(** * The year box *)
(* ===================================================================== *)

Lemma fmap_seq_sorted {A : Type} (R : A -> A -> Prop) (f : nat -> A) (a n : nat) :
  (forall i j, (i < j)%nat -> R (f i) (f j)) ->
  StronglySorted R (f <$> seq a n).
Proof.
  intros Hf. revert a. induction n as [|n IH]; intros a; [constructor|].
  cbn [seq]. rewrite fmap_cons. constructor; [apply IH|].
  apply Forall_forall. intros x (j & -> & Hj%elem_of_seq)%list_elem_of_fmap.
  apply Hf. lia.
Qed.

(** X13.  The year box offers exactly the seasons from 2015 to the current
    year, each once, the newest first; before 2015 it offers none. *)
Theorem year_options_are_the_seasons_since_2015 (current_year : Z) :
  exists years,
    year_options current_year = Ok years
    /\ (forall y, y ∈ years <-> 2015 <= y <= current_year)
    /\ length years = Z.to_nat (current_year - 2014)
    /\ StronglySorted (fun a b => b < a) years
    /\ (2015 <= current_year -> head years = Some current_year).
Proof.
  unfold year_options, PyBuiltins.range. cbn [Z.eqb Z.ltb Z.compare].
  change (- (-1)) with 1.
  eexists. split; [reflexivity|].
  assert (Hn : Z.to_nat (if (2014 <? current_year)%Z
                         then (current_year - 2014 - 1) / 1 + 1 else 0)
               = Z.to_nat (current_year - 2014)).
  { destruct (Z.ltb_spec 2014 current_year); [rewrite Z.div_1_r|]; lia. }
  rewrite Hn. split; [|split; [|split]].
  - intros y. rewrite list_elem_of_fmap. split.
    + intros (i & -> & Hi%elem_of_seq). lia.
    + intros Hy. exists (Z.to_nat (current_year - y)). split; [lia|].
      apply elem_of_seq. lia.
  - by rewrite length_fmap, length_seq.
  - apply fmap_seq_sorted. intros i j Hij. lia.
  - intros Hy. destruct (Z.to_nat (current_year - 2014)) as [|n] eqn:Hz; [lia|].
    cbn [seq]. rewrite fmap_cons. cbn [head]. f_equal. lia.
Qed.

(* ===================================================================== *)
(** * Formatting a formatted name *)
(* ===================================================================== *)




